(** * Windowed collection, merge and daily aggregation of [Avg_Data.py]

    A shallow embedding of the windowed pipeline of [src/Avg_Data.py]:
    the collector [get_reddit_posts_for_date], the store operations
    [save_posts_to_csv] and [load_posts_from_csv], the aggregation
    [analyze_daily_sentiment] and the driver [main].

    Modelling choices.
    - A [pandas.DataFrame] is a list of column names and a list of rows.
      The program only ever uses six columns, so a row is a record with the
      three raw fields and the three derived ones; a derived cell that is
      NaN or missing is [None].
    - Calendar dates are day ordinals in [Z]; the conversion of a timestamp
      to the host's local day is a parameter.  In a [Row] the [Date] cell
      is the day alone, which is what the collector, the merge and the
      store look at.  The aggregation looks at the cell itself: a
      [datetime.date] just collected and the text that [read_csv] returns
      for the same day are different group keys.  [groupby_Date_mean] is
      the aggregation of a frame whose dates are all of one kind; the
      aggregation of a frame with both kinds is embedded apart, over
      [DateCell]s ([analyze_daily_sentiment_cells]).
    - The VADER scorer is a parameter; scores are exact rationals ([Q]), not
      floating-point numbers.
    - The CSV file is absent, or holds a table, or cannot be read (then
      [pandas.read_csv] raises).  A table that is written is the table that
      is read back.
    - Effects are threaded through a state-and-exception monad over a
      [world]: the object store of the frames that [main] binds (one of them
      is changed in place by the aggregation), the file, and the number of
      submissions pulled from the feed.  [print] and the plot change none
      of these and are left out.  So is [time.sleep] in the collector; its
      seconds are counted in a second version of the loop (section Pacing).
    - The pipeline of [src/Raw_Data.py] ([get_reddit_posts],
      [analyze_posts_sentiment], [main]) is embedded in module [Raw_Data],
      over the same frames and the same world. *)

From Stdlib Require Import ZArith QArith List Lqa.
From stdpp Require Import base tactics option list gmap strings.

Local Open Scope string_scope.
Local Open Scope list_scope.
Local Open Scope Z_scope.

(** ** Frames *)

Record Row := mkRow {
  Title : string;
  Text : string;
  Date : Z;
  Sentiment_Title : option Q;
  Sentiment_Text : option Q;
  Overall_Sentiment : option Q
}.

Record DataFrame := mkDataFrame {
  columns : list string;
  rows : list Row
}.

(** One element of [posts_data]: [[title, selftext, post_date]]. *)
Definition post : Type := string * string * Z.

Definition raw_columns : list string := ["Title"; "Text"; "Date"].

Definition row_of_post (p : post) : Row :=
  let '(t, x, d) := p in mkRow t x d None None None.

(** [pd.DataFrame(posts_data, columns=['Title', 'Text', 'Date'])] *)
Definition DataFrame_of (posts_data : list post) : DataFrame :=
  mkDataFrame raw_columns (row_of_post <$> posts_data).

(** [df.empty]: some axis has length zero. *)
Definition empty (df : DataFrame) : bool :=
  match columns df, rows df with
  | [], _ | _, [] => true
  | _, _ => false
  end.

(** The identity used by [drop_duplicates(subset=['Title', 'Text'])]. *)
Definition key (r : Row) : string * string := (Title r, Text r).

(** Column index of [pd.concat]: the columns of the first frame, then the
    columns of the second that the first does not have. *)
Definition concat_columns (c1 c2 : list string) : list string :=
  c1 ++ filter (λ c, c ∉ c1) c2.

(** [pd.concat([a, b])] *)
Definition concat (a b : DataFrame) : DataFrame :=
  mkDataFrame (concat_columns (columns a) (columns b)) (rows a ++ rows b).

(** [keep='last'] on the rows: a row stays iff no later row has its key. *)
Fixpoint keep_last (l : list Row) : list Row :=
  match l with
  | [] => []
  | r :: rest =>
      if decide (key r ∈ key <$> rest) then keep_last rest
      else r :: keep_last rest
  end.

(** [df.drop_duplicates(subset=['Title', 'Text'], keep='last')] *)
Definition drop_duplicates (df : DataFrame) : DataFrame :=
  mkDataFrame (columns df) (keep_last (rows df)).

(** The expression that occurs in [save_posts_to_csv] and in [main]:
    [pd.concat([existing, incoming]).drop_duplicates(...)]. *)
Definition merge (existing incoming : DataFrame) : DataFrame :=
  drop_duplicates (concat existing incoming).

(** ** The world and its monad *)

Inductive file_content :=
  | Csv (df : DataFrame)
  | Malformed.

Inductive exn :=
  | SourceError        (* raised by the feed while it is iterated *)
  | ParserError        (* raised by [pd.read_csv] *)
  | ZeroDivisionError  (* [len(posts_data) % 0] *)
  | InvalidReference.  (* no object at a location; Python has no such state *)

Record world := mkWorld {
  heap : gmap nat DataFrame;
  next : nat;
  file : option file_content;
  fetched : nat
}.

Inductive outcome (A : Type) :=
  | Ret (a : A) (w : world)
  | Raise (e : exn) (w : world).
Arguments Ret {A} a w.
Arguments Raise {A} e w.

Definition M (A : Type) : Type := world → outcome A.

#[global] Instance M_ret : MRet M := λ A a w, Ret a w.
#[global] Instance M_bind : MBind M := λ A B f m w,
  match m w with
  | Ret a w' => f a w'
  | Raise e w' => Raise e w'
  end.

Definition raise {A} (e : exn) : M A := λ w, Raise e w.

Definition final_world {A} (o : outcome A) : world :=
  match o with Ret _ w | Raise _ w => w end.

(** [os.path.exists(filename)] together with the content *)
Definition read_file : M (option file_content) := λ w, Ret (file w) w.

Definition write_file (c : file_content) : M unit := λ w,
  Ret tt (mkWorld (heap w) (next w) (Some c) (fetched w)).

(** One more submission has been pulled from the feed. *)
Definition fetch_one : M unit := λ w,
  Ret tt (mkWorld (heap w) (next w) (file w) (S (fetched w))).

Definition alloc (df : DataFrame) : M nat := λ w,
  Ret (next w) (mkWorld (<[next w := df]> (heap w)) (S (next w)) (file w) (fetched w)).

Definition deref (r : nat) : M DataFrame := λ w,
  match heap w !! r with
  | Some df => Ret df w
  | None => Raise InvalidReference w
  end.

(** In-place update of the object at [r]. *)
Definition modify (r : nat) (f : DataFrame → DataFrame) : M unit := λ w,
  match heap w !! r with
  | Some df => Ret tt (mkWorld (<[r := f df]> (heap w)) (next w) (file w) (fetched w))
  | None => Raise InvalidReference w
  end.

(** [pd.read_csv(filename)] on an existing file *)
Definition read_csv (c : file_content) : M DataFrame :=
  match c with
  | Csv df => mret df
  | Malformed => raise ParserError
  end.

(** [posts_df.to_csv(filename, index=False)] *)
Definition to_csv (df : DataFrame) : M unit := write_file (Csv df).

(** ** The store: [save_posts_to_csv], [load_posts_from_csv] *)

Definition save_posts_to_csv (posts_df : DataFrame) : M unit :=
  f ← read_file;
  match f with
  | Some c =>
      existing_data ← read_csv c;
      to_csv (drop_duplicates (concat existing_data posts_df))
  | None => to_csv posts_df
  end.

Definition load_posts_from_csv : M DataFrame :=
  f ← read_file;
  match f with
  | Some c => read_csv c
  | None => mret (mkDataFrame raw_columns [])
  end.

(** ** The feed *)

Record Submission := mkSubmission {
  title : string;
  selftext : string;
  created_utc : Z
}.

(** How the iteration of [subreddit.new(limit=None)] ends after its items. *)
Inductive ending := Exhausted | Fails.

Record feed := mkFeed {
  items : list Submission;
  at_end : ending
}.

(** [a % b] of Python on integers: the sign follows the divisor, as
    [Z.modulo] does, and a zero divisor raises. *)
Definition py_mod (a b : Z) : M Z :=
  if b =? 0 then raise ZeroDivisionError else mret (a mod b).

(** ** Grouping by date *)

(** The group keys of [groupby('Date')]: the distinct dates in ascending
    order. *)
Fixpoint insert_key (d : Z) (ks : list Z) : list Z :=
  match ks with
  | [] => [d]
  | k :: ks' =>
      if d <? k then d :: ks
      else if d =? k then ks
      else k :: insert_key d ks'
  end.

Definition group_keys (ds : list Z) : list Z := foldr insert_key [] ds.

Definition Qsum (xs : list Q) : Q := fold_left Qplus xs 0%Q.

(** The arithmetic mean of a non-empty list. *)
Definition arith_mean (xs : list Q) : Q :=
  (Qsum xs / inject_Z (Z.of_nat (List.length xs)))%Q.

(** ['mean'] of pandas on a column: NaN cells are skipped, and the mean of
    no value at all is NaN. *)
Definition nan_mean (cells : list (option Q)) : option Q :=
  match omap id cells with
  | [] => None
  | xs => Some (arith_mean xs)
  end.

(** The rows of a frame dated [d]. *)
Definition dated (d : Z) (l : list Row) : list Row :=
  filter (λ r, Date r = d) l.

(** [df.groupby('Date').agg({'Overall_Sentiment': 'mean'}).reset_index()]
    on a frame whose [Date] cells are all of one kind: one row
    [(Date, Overall_Sentiment)] per group. *)
Definition groupby_Date_mean (df : DataFrame) : list (Z * option Q) :=
  (λ d, (d, nan_mean (Overall_Sentiment <$> dated d (rows df))))
    <$> group_keys (Date <$> rows df).

Section Pipeline.

(** [dt.datetime.fromtimestamp(t).date()], as a day ordinal *)
Variable fromtimestamp_date : Z → Z.

(** [analyze_sentiment]: the compound score of VADER *)
Variable analyze_sentiment : string → Q.

(** ** The collector: [get_reddit_posts_for_date] *)

(** The [for] loop.  Reaching the end of the items either ends the loop
    or raises, as the feed decides; [break] ends it at once. *)
Fixpoint collect_loop (start_date end_date batch_size : Z) (e : ending)
    (src : list Submission) (posts_data : list post) : M (list post) :=
  match src with
  | [] =>
      match e with
      | Exhausted => mret posts_data
      | Fails => raise SourceError
      end
  | submission :: rest =>
      _ ← fetch_one;
      let post_date := fromtimestamp_date (created_utc submission) in
      if post_date <? start_date then mret posts_data
      else if (start_date <=? post_date) && (post_date <=? end_date) then
        let posts_data :=
          posts_data ++ [(title submission, selftext submission, post_date)] in
        m ← py_mod (Z.of_nat (List.length posts_data)) batch_size;
        _ ← (if m =? 0 then save_posts_to_csv (DataFrame_of posts_data)
             else mret tt);
        collect_loop start_date end_date batch_size e rest posts_data
      else collect_loop start_date end_date batch_size e rest posts_data
  end.

Definition get_reddit_posts_for_date (src : feed)
    (start_date end_date batch_size : Z) : M DataFrame :=
  posts_data ← collect_loop start_date end_date batch_size
                  (at_end src) (items src) [];
  _ ← (match posts_data with
       | [] => mret tt
       | _ :: _ => save_posts_to_csv (DataFrame_of posts_data)
       end);
  mret (DataFrame_of posts_data).

(** ** The aggregation: [analyze_daily_sentiment] *)

(** [df[c] = ...] appends the column when the frame does not have it. *)
Definition add_column (c : string) (cols : list string) : list string :=
  if decide (c ∈ cols) then cols else cols ++ [c].

(** [posts_df['Sentiment_Title'] = posts_df['Title'].apply(analyze_sentiment)] *)
Definition set_Sentiment_Title (df : DataFrame) : DataFrame :=
  mkDataFrame (add_column "Sentiment_Title" (columns df))
    ((λ r, mkRow (Title r) (Text r) (Date r)
             (Some (analyze_sentiment (Title r)))
             (Sentiment_Text r) (Overall_Sentiment r)) <$> rows df).

(** [posts_df['Sentiment_Text'] = posts_df['Text'].apply(analyze_sentiment)] *)
Definition set_Sentiment_Text (df : DataFrame) : DataFrame :=
  mkDataFrame (add_column "Sentiment_Text" (columns df))
    ((λ r, mkRow (Title r) (Text r) (Date r)
             (Sentiment_Title r)
             (Some (analyze_sentiment (Text r))) (Overall_Sentiment r)) <$> rows df).

(** [(a + b) / 2] on two cells; NaN propagates. *)
Definition half_sum (a b : option Q) : option Q :=
  match a, b with
  | Some x, Some y => Some ((x + y) / 2)%Q
  | _, _ => None
  end.

(** [posts_df['Overall_Sentiment'] =
      (posts_df['Sentiment_Title'] + posts_df['Sentiment_Text']) / 2] *)
Definition set_Overall_Sentiment (df : DataFrame) : DataFrame :=
  mkDataFrame (add_column "Overall_Sentiment" (columns df))
    ((λ r, mkRow (Title r) (Text r) (Date r)
             (Sentiment_Title r) (Sentiment_Text r)
             (half_sum (Sentiment_Title r) (Sentiment_Text r))) <$> rows df).

Definition analyze_daily_sentiment (posts_df : nat) : M (list (Z * option Q)) :=
  _ ← modify posts_df set_Sentiment_Title;
  _ ← modify posts_df set_Sentiment_Text;
  _ ← modify posts_df set_Overall_Sentiment;
  df ← deref posts_df;
  mret (groupby_Date_mean df).

(** ** The driver: [main] *)

(** [today] is [dt.date.today()] and [src] the feed of the subreddit.  The
    value returned is the frame handed to [plot_sentiment]. *)
Definition main (today : Z) (src : feed) : M (list (Z * option Q)) :=
  let end_date := today in
  let start_date := end_date - 50 in
  stored_posts_df ← load_posts_from_csv ≫= alloc;
  posts_df ← get_reddit_posts_for_date src start_date end_date 100 ≫= alloc;
  collected ← deref posts_df;
  posts_df ← (if negb (empty collected) then
                stored ← deref stored_posts_df;
                alloc (drop_duplicates (concat stored collected))
              else mret posts_df);
  daily_sentiment ← analyze_daily_sentiment posts_df;
  final ← deref posts_df;
  _ ← save_posts_to_csv final;
  mret daily_sentiment.

End Pipeline.

(** ** The specification's vocabulary *)

(** [overallSentiment(p) = (score(p.title) + score(p.body)) / 2] *)
Definition overallSentiment (score : string → Q) (r : Row) : Q :=
  ((score (Title r) + score (Text r)) / 2)%Q.

(** A row once the three derived columns have been assigned. *)
Definition scored (score : string → Q) (r : Row) : Row :=
  mkRow (Title r) (Text r) (Date r)
    (Some (score (Title r))) (Some (score (Text r)))
    (Some (overallSentiment score r)).

(** The frame after the three column assignments of
    [analyze_daily_sentiment]. *)
Definition analyzed (score : string → Q) (df : DataFrame) : DataFrame :=
  set_Overall_Sentiment (set_Sentiment_Text score (set_Sentiment_Title score df)).

Definition derived_columns : list string :=
  ["Sentiment_Title"; "Sentiment_Text"; "Overall_Sentiment"].

(** A date is in the window. *)
Definition in_window (start_date end_date d : Z) : Prop :=
  start_date ≤ d ≤ end_date.

#[global] Instance in_window_dec (start_date end_date d : Z) :
  Decision (in_window start_date end_date d).
Proof. unfold in_window. apply _. Defined.

Section Window.

Variable fromtimestamp_date : Z → Z.
Variables start_date end_date : Z.

Definition post_date (s : Submission) : Z :=
  fromtimestamp_date (created_utc s).

Definition post_of (s : Submission) : post :=
  (title s, selftext s, post_date s).

(** The submissions ahead of the first one dated before [start_date]. *)
Fixpoint before_stop (src : list Submission) : list Submission :=
  match src with
  | [] => []
  | s :: rest =>
      if decide (post_date s < start_date) then []
      else s :: before_stop rest
  end.

(** Some submission is dated before [start_date]. *)
Definition stops (src : list Submission) : bool :=
  bool_decide (Exists (λ s, post_date s < start_date) src).

(** The submissions the loop pulls from the feed: those ahead of the
    stopping one, and the stopping one itself. *)
Definition iterated (src : list Submission) : nat :=
  (List.length (before_stop src) + (if stops src then 1 else 0))%nat.

(** The posts the loop appends. *)
Definition collected (src : list Submission) : list post :=
  post_of <$> filter (λ s, in_window start_date end_date (post_date s))
                (before_stop src).

(** How the loop ends: normally after a [break] or when the feed is
    exhausted, with [SourceError] when the feed fails first. *)
Definition loop_end (e : ending) (src : list Submission)
    (posts_data : list post) (w : world) : outcome (list post) :=
  if stops src then Ret posts_data w
  else match e with
       | Exhausted => Ret posts_data w
       | Fails => Raise SourceError w
       end.

End Window.

(** What [load_posts_from_csv] returns for a file that is absent or holds
    a table. *)
Definition loaded (f : option file_content) : DataFrame :=
  match f with
  | Some (Csv df) => df
  | _ => mkDataFrame raw_columns []
  end.

(** The rows of the store a file holds; none when there is no file. *)
Definition stored_rows (f : option file_content) : list Row :=
  match f with
  | Some (Csv df) => rows df
  | _ => []
  end.

(** The world with another file content. *)
Definition with_file (w : world) (f : option file_content) : world :=
  mkWorld (heap w) (next w) f (fetched w).

(** What [save_posts_to_csv] writes over a file that is absent or holds
    a table. *)
Definition saved (f : option file_content) (posts_df : DataFrame) : DataFrame :=
  match f with
  | Some (Csv existing_data) => merge existing_data posts_df
  | _ => posts_df
  end.

(** Of [n] collected posts, how many the last flush of the loop covered. *)
Definition flushed (batch_size : Z) (n : nat) : nat :=
  Z.to_nat (Z.of_nat n - Z.of_nat n mod batch_size).

(** The file after the flushes of the loop, for the posts collected so
    far: untouched before the first flush; afterwards a table that holds,
    up to deduplication, the initial store merged with the flushed posts. *)
Definition flushed_file (batch_size : Z) (f0 f : option file_content)
    (posts_data : list post) : Prop :=
  let k := flushed batch_size (List.length posts_data) in
  (k = 0%nat ∧ f = f0)
  ∨ (k ≠ 0%nat ∧ ∃ df, f = Some (Csv df)
       ∧ keep_last (rows df)
         = keep_last (stored_rows f0 ++ (row_of_post <$> take k posts_data))).

(** ** Sample data *)

Module Sample.

Definition w0 : world := mkWorld ∅ 0%nat None 0%nat.

(** A host on UTC. *)
Definition utc_day (t : Z) : Z := t / 86400.

Definition sub (t x : string) (day : Z) : Submission :=
  mkSubmission t x (day * 86400 + 3600).

(** Scores 1 for "a" and "b", -1 for "c" and "d", 0 otherwise. *)
Definition score (s : string) : Q :=
  if decide (s = "a" ∨ s = "b") then 1%Q
  else if decide (s = "c" ∨ s = "d") then (-1)%Q
  else 0%Q.

(** Four posts dated 10, 9, 8 and 7, newest first. *)
Definition feed4 : feed :=
  mkFeed [sub "p10" "" 10; sub "p9" "" 9; sub "p8" "" 8; sub "p7" "" 7]
         Exhausted.

(** Five posts in the window 8..9, then the feed fails. *)
Definition feed_fail : feed :=
  mkFeed [sub "f1" "" 9; sub "f2" "" 9; sub "f3" "" 8; sub "f4" "" 8;
          sub "f5" "" 8] Fails.

(** One post, older than the 50 days before day 100. *)
Definition feed_old : feed := mkFeed [sub "old" "" 40] Exhausted.

(** One post of day 100. *)
Definition feed_one : feed := mkFeed [sub "a" "b" 100] Exhausted.

Definition store2 : DataFrame :=
  DataFrame_of [("t1", "x1", 1); ("t2", "x2", 2)].
Definition no_posts : DataFrame := DataFrame_of [].

Definition two_posts : DataFrame :=
  DataFrame_of [("a", "b", 20); ("c", "d", 20)].

(** The file holds [store2]. *)
Definition w_store2 : world := with_file w0 (Some (Csv store2)).

(** The file holds one post of day 90. *)
Definition w_stored : world :=
  with_file w0 (Some (Csv (DataFrame_of [("a", "b", 90)]))).

(** The file cannot be read. *)
Definition w_bad : world := with_file w0 (Some Malformed).

(** The frame [two_posts] is the object at location 0. *)
Definition w_two : world := mkWorld {[ 0%nat := two_posts ]} 1%nat None 0%nat.

End Sample.

(** ** Pacing *)

(** The loop of the collector once more, with the seconds spent in
    [time.sleep] as an explicit counter: two seconds after every flush and
    one second at the end of every iteration that does not [break]. *)
Fixpoint collect_loop_paced (fromtimestamp_date : Z → Z)
    (start_date end_date batch_size : Z) (e : ending)
    (src : list Submission) (posts_data : list post) (slept : Z)
    : M (list post * Z) :=
  match src with
  | [] =>
      match e with
      | Exhausted => mret (posts_data, slept)
      | Fails => raise SourceError
      end
  | submission :: rest =>
      _ ← fetch_one;
      let post_date := fromtimestamp_date (created_utc submission) in
      if post_date <? start_date then mret (posts_data, slept)
      else
        st ← (if (start_date <=? post_date) && (post_date <=? end_date) then
                let posts_data :=
                  posts_data ++ [(title submission, selftext submission, post_date)] in
                m ← py_mod (Z.of_nat (List.length posts_data)) batch_size;
                if m =? 0 then
                  _ ← save_posts_to_csv (DataFrame_of posts_data);
                  mret (posts_data, slept + 2)
                else mret (posts_data, slept)
              else mret (posts_data, slept));
        collect_loop_paced fromtimestamp_date start_date end_date batch_size e
          rest st.1 (st.2 + 1)
  end.

(** [get_reddit_posts_for_date], returning the seconds slept next to the
    frame. *)
Definition get_reddit_posts_for_date_paced (fromtimestamp_date : Z → Z)
    (src : feed) (start_date end_date batch_size : Z) : M (DataFrame * Z) :=
  st ← collect_loop_paced fromtimestamp_date start_date end_date batch_size
         (at_end src) (items src) [] 0;
  _ ← (match st.1 with
       | [] => mret tt
       | _ :: _ => save_posts_to_csv (DataFrame_of st.1)
       end);
  mret (DataFrame_of st.1, st.2).

(** The raw fields of a row. *)
Definition raw_fields (r : Row) : string * string * Z :=
  (Title r, Text r, Date r).

(** ** The pipeline without a window: [Raw_Data.py]

    The frames of [Raw_Data.py] have the columns [Title], [Text], [Date],
    [Sentiment], [Text_Sentiment] and [Overall_Sentiment].  Rows are the
    records used above: the cell of column [Sentiment] is the field
    [Sentiment_Title], the cell of column [Text_Sentiment] is the field
    [Sentiment_Text], and [Date] holds a local date and time, as a number,
    instead of a day. *)

Module Raw_Data.

(** What [subreddit.hot(limit=limit)] yields of a listing: its first
    [limit] posts, and the end of the listing, a failure included, only if
    the listing is shorter than that. *)
Definition hot (limit : nat) (listing : feed) : feed :=
  if decide (limit ≤ List.length (items listing))%nat
  then mkFeed (take limit (items listing)) Exhausted
  else listing.

(** The [for] loop of [get_reddit_posts]: every post is appended. *)
Fixpoint posts_loop (e : ending) (posts : list Submission)
    (posts_data : list post) : M (list post) :=
  match posts with
  | [] =>
      match e with
      | Exhausted => mret posts_data
      | Fails => raise SourceError
      end
  | p :: rest =>
      _ ← fetch_one;
      posts_loop e rest (posts_data ++ [(title p, selftext p, created_utc p)])
  end.

Section Functions.

(** [dt.datetime.fromtimestamp], as a number *)
Variable fromtimestamp : Z → Z.

(** [analyze_sentiment]: the compound score of VADER *)
Variable analyze_sentiment : string → Q.

(** [posts_df['Date'] = posts_df['Date'].apply(lambda x: ...)] *)
Definition set_Date (df : DataFrame) : DataFrame :=
  mkDataFrame (add_column "Date" (columns df))
    ((λ r, mkRow (Title r) (Text r) (fromtimestamp (Date r))
             (Sentiment_Title r) (Sentiment_Text r) (Overall_Sentiment r))
       <$> rows df).

Definition get_reddit_posts (listing : feed) (limit : nat) : M DataFrame :=
  let posts := hot limit listing in
  posts_data ← posts_loop (at_end posts) (items posts) [];
  mret (set_Date (DataFrame_of posts_data)).

(** [posts_df['Sentiment'] = posts_df['Title'].apply(analyze_sentiment)] *)
Definition set_Sentiment (df : DataFrame) : DataFrame :=
  mkDataFrame (add_column "Sentiment" (columns df))
    ((λ r, mkRow (Title r) (Text r) (Date r)
             (Some (analyze_sentiment (Title r)))
             (Sentiment_Text r) (Overall_Sentiment r)) <$> rows df).

(** [posts_df['Text_Sentiment'] = posts_df['Text'].apply(analyze_sentiment)] *)
Definition set_Text_Sentiment (df : DataFrame) : DataFrame :=
  mkDataFrame (add_column "Text_Sentiment" (columns df))
    ((λ r, mkRow (Title r) (Text r) (Date r)
             (Sentiment_Title r)
             (Some (analyze_sentiment (Text r))) (Overall_Sentiment r))
       <$> rows df).

(** [analyze_posts_sentiment]: the frame is changed in place and the
    reference given is the reference returned. *)
Definition analyze_posts_sentiment (posts_df : nat) : M nat :=
  _ ← modify posts_df set_Sentiment;
  _ ← modify posts_df set_Text_Sentiment;
  _ ← modify posts_df set_Overall_Sentiment;
  mret posts_df.

(** [df.head()]: the first five rows *)
Definition head (df : DataFrame) : DataFrame :=
  mkDataFrame (columns df) (take 5 (rows df)).

(** [main]: the value returned is the frame that is printed and the frame
    handed to [plot_sentiment]. *)
Definition main (listing : feed) : M (DataFrame * DataFrame) :=
  posts_df ← get_reddit_posts listing 200 ≫= alloc;
  posts_df ← analyze_posts_sentiment posts_df;
  final ← deref posts_df;
  mret (head final, final).

End Functions.

(** The columns of a frame of [Raw_Data.py] after the analysis. *)
Definition all_columns : list string :=
  ["Title"; "Text"; "Date"; "Sentiment"; "Text_Sentiment"; "Overall_Sentiment"].

(** A row of the frame that [main] plots, for a post of the listing. *)
Definition analyzed_row (fromtimestamp : Z → Z) (score : string → Q)
    (p : Submission) : Row :=
  mkRow (title p) (selftext p) (fromtimestamp (created_utc p))
    (Some (score (title p))) (Some (score (selftext p)))
    (Some ((score (title p) + score (selftext p)) / 2)%Q).

End Raw_Data.

(** ** More sample data *)

Module Sample2.

(** Two posts of day 9 with the same title and text, then one of day 8. *)
Definition feed_dup : feed :=
  mkFeed [Sample.sub "t" "x" 9; Sample.sub "t" "x" 9; Sample.sub "u" "y" 8]
         Exhausted.

(** Two posts newer than day 9, then one of day 9. *)
Definition feed_newer : feed :=
  mkFeed [Sample.sub "n1" "" 11; Sample.sub "n2" "" 10; Sample.sub "in" "" 9]
         Exhausted.

(** A scorer with values in [-1, 1]. *)
Definition score (s : string) : Q :=
  if decide (s = "good") then (4 # 5)%Q
  else if decide (s = "bad") then (- (3 # 5))%Q
  else 0%Q.

Definition mixed : DataFrame :=
  DataFrame_of [("good", "bad", 3); ("bad", "bad", 1); ("good", "good", 3)].

(** [mixed] in another order. *)
Definition mixed_permuted : DataFrame :=
  DataFrame_of [("good", "good", 3); ("good", "bad", 3); ("bad", "bad", 1)].

(** [mixed] with scores left by an earlier run with another scorer. *)
Definition mixed_stale : DataFrame :=
  mkDataFrame (raw_columns ++ derived_columns)
    (scored Sample.score <$> rows mixed).

Definition w_mixed : world :=
  mkWorld {[ 0%nat := mixed; 1%nat := mixed_permuted; 2%nat := mixed_stale ]}
    3%nat None 0%nat.

End Sample2.

(** ** The [Date] cells as pandas holds them

    The collector puts a [datetime.date] in the [Date] column (line 44);
    [pd.read_csv] (line 127) hands the column back as text, ['2024-05-06'].
    The frame that [main] builds at line 171 from the stored table and the
    collected one holds cells of both kinds.  [groupby('Date')] groups by
    the cell itself: a date and the text of that date are unequal, hence two
    groups; and the sort of the group keys, which cannot compare a date
    with a text, puts the keys that are not text first, each kind in its own
    ascending order (ISO texts of dates are ordered as the dates are).
    The definitions below repeat the aggregation over rows that carry the
    kind of their [Date] cell. *)

Inductive DateCell :=
  | date_obj (day : Z)
  | date_text (day : Z).

#[global] Instance DateCell_eq_dec : EqDecision DateCell.
Proof. solve_decision. Defined.

Definition day_of (c : DateCell) : Z :=
  match c with
  | date_obj d | date_text d => d
  end.

(** The order of the group keys. *)
Definition cell_ltb (a b : DateCell) : bool :=
  match a, b with
  | date_obj x, date_obj y => x <? y
  | date_text x, date_text y => x <? y
  | date_obj _, date_text _ => true
  | date_text _, date_obj _ => false
  end.

Fixpoint insert_cell (c : DateCell) (ks : list DateCell) : list DateCell :=
  match ks with
  | [] => [c]
  | k :: ks' =>
      if cell_ltb c k then c :: ks
      else if decide (c = k) then ks
      else k :: insert_cell c ks'
  end.

Definition cell_keys (cs : list DateCell) : list DateCell :=
  foldr insert_cell [] cs.

(** A row together with the kind of its [Date] cell: [true] for text. *)
Definition CellRow : Type := Row * bool.

Definition Date_cell (r : CellRow) : DateCell :=
  if r.2 then date_text (Date r.1) else date_obj (Date r.1).

(** The rows of a frame whose [Date] cell is [c]. *)
Definition cell_dated (c : DateCell) (l : list CellRow) : list CellRow :=
  filter (λ r, Date_cell r = c) l.

(** [df.groupby('Date').agg({'Overall_Sentiment': 'mean'}).reset_index()]
    on such rows. *)
Definition groupby_Date_cell_mean (l : list CellRow)
    : list (DateCell * option Q) :=
  (λ c, (c, nan_mean (Overall_Sentiment <$> (cell_dated c l).*1)))
    <$> cell_keys (Date_cell <$> l).

(** The three column assignments (lines 95 to 99) leave the [Date] cells
    as they are. *)
Definition assigned (score : string → Q) (l : list CellRow) : list CellRow :=
  zip (rows (set_Overall_Sentiment
               (set_Sentiment_Text score
                  (set_Sentiment_Title score (mkDataFrame raw_columns l.*1)))))
      l.*2.

(** [analyze_daily_sentiment] on such rows: the rows it leaves, and the
    series it returns. *)
Definition analyze_daily_sentiment_cells (score : string → Q)
    (l : list CellRow) : list CellRow * list (DateCell * option Q) :=
  let posts_df := assigned score l in
  (posts_df, groupby_Date_cell_mean posts_df).

(** Rows that were all just collected. *)
Definition all_dates (l : list Row) : list CellRow := (λ r, (r, false)) <$> l.

Module Sample3.

(** The frame of line 171 when the file holds the post ("c", "d") of day
    100, written by an earlier run, and the feed yields the post ("a", "b")
    of day 100: the stored row first, its date a text, then the collected
    one, its date a [datetime.date]. *)
Definition stored_then_collected : list CellRow :=
  [(row_of_post ("c", "d", 100), true); (row_of_post ("a", "b", 100), false)].

End Sample3.

(** * Properties *)

(** ** Deduplication *)

Lemma keep_last_elem (l : list Row) (r : Row) : r ∈ keep_last l → r ∈ l.
Proof.
  induction l as [|a l IH]; simpl; [done|].
  case_decide; rewrite ?elem_of_cons; intuition.
Qed.

Lemma keep_last_keys (l : list Row) (k : string * string) :
  k ∈ key <$> keep_last l ↔ k ∈ key <$> l.
Proof.
  induction l as [|a l IH]; simpl; [done|].
  case_decide; rewrite ?fmap_cons, !elem_of_cons, ?IH;
    intuition (subst; auto).
Qed.

Lemma keep_last_NoDup (l : list Row) : NoDup (key <$> keep_last l).
Proof.
  induction l as [|a l IH]; simpl; [constructor|].
  case_decide; [done|].
  rewrite fmap_cons. constructor; [by rewrite keep_last_keys|done].
Qed.

Lemma keep_last_id (l : list Row) : NoDup (key <$> l) → keep_last l = l.
Proof.
  induction l as [|a l IH]; simpl; [done|].
  rewrite NoDup_cons. intros [Hn Hd].
  case_decide; [done|]. by rewrite IH.
Qed.

Lemma keep_last_idemp (l : list Row) : keep_last (keep_last l) = keep_last l.
Proof. apply keep_last_id, keep_last_NoDup. Qed.

(** Deduplicating a concatenation: the survivors of the first part are
    those whose key does not come back in the second. *)
Lemma keep_last_app (l1 l2 : list Row) :
  keep_last (l1 ++ l2) =
  filter (λ r, key r ∉ key <$> l2) (keep_last l1) ++ keep_last l2.
Proof.
  induction l1 as [|a l1 IH]; simpl; [done|].
  rewrite fmap_app.
  destruct (decide (key a ∈ key <$> l1)) as [Hin|Hin].
  - rewrite decide_True by (apply elem_of_app; auto). done.
  - destruct (decide (key a ∈ key <$> l2)) as [Hin2|Hin2].
    + rewrite decide_True by (apply elem_of_app; auto).
      rewrite filter_cons_False by auto. done.
    + rewrite decide_False by (rewrite elem_of_app; tauto).
      rewrite filter_cons_True by auto. simpl. by rewrite IH.
Qed.




Lemma filter_keys_covered (l l' : list Row) :
  (∀ r, r ∈ l' → key r ∈ key <$> l) →
  filter (λ r, key r ∉ key <$> l) l' = [].
Proof.
  induction l' as [|a l' IH]; [done|]. intros Hcov.
  rewrite filter_cons_False.
  - apply IH. intros r Hr. apply Hcov. by right.
  - intros Hn. apply Hn, Hcov. left.
Qed.

Lemma concat_columns_subseteq (c1 c2 : list string) :
  (∀ c, c ∈ c2 → c ∈ c1) → concat_columns c1 c2 = c1.
Proof.
  intros Hsub. unfold concat_columns.
  replace (filter (λ c, c ∉ c1) c2) with (@nil string).
  - by rewrite app_nil_r.
  - symmetry. induction c2 as [|c c2 IH]; [done|].
    rewrite filter_cons_False.
    + apply IH. intros c' Hc'. apply Hsub. by right.
    + intros Hn. apply Hn, Hsub. left.
Qed.

(** Merging into a store whose keys are unique. *)
Lemma merge_rows_unique (store incoming : DataFrame) :
  NoDup (key <$> rows store) →
  rows (merge store incoming) =
  filter (λ r, key r ∉ key <$> rows incoming) (rows store)
    ++ keep_last (rows incoming).
Proof.
  intros Hnd. unfold merge, drop_duplicates, concat. simpl.
  by rewrite keep_last_app, (keep_last_id (rows store)).
Qed.


(** C2: merging an empty incoming sequence into a duplicate-free store
    leaves its rows as they are (and the whole frame, when the incoming
    frame brings no new column); loading a file that holds such a store and
    saving the merge of what was loaded with nothing writes back the rows
    the file had. *)
Theorem merge_empty_incoming (store incoming : DataFrame) (w : world) :
  NoDup (key <$> rows store) → rows incoming = [] →
  rows (merge store incoming) = rows store
  ∧ ((∀ c, c ∈ columns incoming → c ∈ columns store) →
     merge store incoming = store)
  ∧ (file w = Some (Csv store) →
     load_posts_from_csv w = Ret store w
     ∧ ∃ store',
         (loaded ← load_posts_from_csv;
          save_posts_to_csv (merge loaded incoming)) w
         = Ret tt (mkWorld (heap w) (next w) (Some (Csv store')) (fetched w))
         ∧ rows store' = rows store
         ∧ rows store' ≡ₚ rows store).
Proof.
  intros Hnd Hinc.
  assert (rows (merge store incoming) = rows store) as Hrows.
  { rewrite merge_rows_unique, Hinc by done. simpl.
    rewrite app_nil_r. generalize (rows store) as l.
    induction l as [|a l IH]; [done|].
    rewrite filter_cons_True by (simpl; apply not_elem_of_nil).
    by rewrite IH. }
  split_and!; [done| |].
  - intros Hsub. destruct store as [cs rs]. unfold merge, drop_duplicates.
    simpl in *. f_equal; [by apply concat_columns_subseteq|].
    exact Hrows.
  - intros Hfile.
    assert (load_posts_from_csv w = Ret store w) as Hload.
    { unfold load_posts_from_csv, mbind, M_bind, read_file. by rewrite Hfile. }
    split; [done|].
    exists (merge store (merge store incoming)).
    assert (rows (merge store (merge store incoming)) = rows store) as Hre.
    { rewrite merge_rows_unique, Hrows by done.
      rewrite filter_keys_covered, keep_last_id by
        (done || (intros r ?; by apply list_elem_of_fmap_2)).
      done. }
    split_and!; [|done|by rewrite Hre].
    unfold mbind, M_bind at 1. rewrite Hload.
    unfold save_posts_to_csv, mbind, M_bind, read_file. rewrite Hfile.
    done.
Qed.

(** ** Saving *)

Lemma save_posts_to_csv_ok (posts_df : DataFrame) (w : world) :
  file w ≠ Some Malformed →
  save_posts_to_csv posts_df w
  = Ret tt (with_file w (Some (Csv (saved (file w) posts_df)))).
Proof.
  intros Hf. unfold save_posts_to_csv, mbind, M_bind, read_file, with_file.
  destruct (file w) as [[df|]|]; done.
Qed.

Lemma save_posts_to_csv_malformed (posts_df : DataFrame) (w : world) :
  file w = Some Malformed →
  save_posts_to_csv posts_df w = Raise ParserError w.
Proof.
  intros Hf. unfold save_posts_to_csv, mbind, M_bind, read_file.
  by rewrite Hf.
Qed.

(** Saving a frame that repeats every key already flushed replaces what
    the earlier flushes wrote. *)
Lemma keep_last_collapse (X R0 A P : list Row) :
  keep_last X = keep_last (R0 ++ A) →
  (∀ r, r ∈ A → key r ∈ key <$> P) →
  keep_last (X ++ P) = keep_last (R0 ++ P).
Proof.
  intros HX Hcov.
  rewrite (keep_last_app X), HX, !keep_last_app, filter_app.
  rewrite (filter_keys_covered P (keep_last A)).
  - rewrite app_nil_r. f_equal.
    rewrite list_filter_filter. apply list_filter_iff.
    intros r. split; [tauto|]. intros Hr. split; [done|].
    intros (a & Hk & Ha)%list_elem_of_fmap. apply Hr.
    rewrite Hk. by apply Hcov.
  - intros r Hr%keep_last_elem. by apply Hcov.
Qed.

(** ** Arithmetic of the flush points *)

Lemma flushed_full (b : Z) (n : nat) :
  Z.of_nat n mod b = 0 → flushed b n = n.
Proof. intros H. unfold flushed. rewrite H. lia. Qed.

Lemma flushed_step (b : Z) (n : nat) :
  0 < b → Z.of_nat (S n) mod b ≠ 0 → flushed b (S n) = flushed b n.
Proof.
  intros Hb Hm. unfold flushed. f_equal.
  rewrite Nat2Z.inj_succ in *.
  pose proof (Z.mod_pos_bound (Z.of_nat n) b Hb) as Hbound.
  destruct (decide (Z.of_nat n mod b + 1 < b)) as [Hlt|Hge].
  - assert (Z.succ (Z.of_nat n) mod b = Z.of_nat n mod b + 1) as ->; [|lia].
    symmetry. apply (Z.mod_unique_pos _ _ (Z.of_nat n / b)); [lia|].
    pose proof (Z.div_mod (Z.of_nat n) b). lia.
  - exfalso. apply Hm.
    symmetry. apply (Z.mod_unique_pos _ _ (Z.of_nat n / b + 1)); [lia|].
    pose proof (Z.div_mod (Z.of_nat n) b). lia.
Qed.

Lemma flushed_bounds (b : Z) (n : nat) :
  0 < b →
  (flushed b n ≤ n)%nat ∧ Z.of_nat (n - flushed b n) ≤ b - 1
  ∧ Z.of_nat (flushed b n) mod b = 0.
Proof.
  intros Hb. unfold flushed.
  pose proof (Z.mod_pos_bound (Z.of_nat n) b Hb) as Hbound.
  pose proof (Z.mod_le (Z.of_nat n) b (Nat2Z.is_nonneg n) Hb) as Hle.
  split_and!.
  1,2: generalize dependent (Z.of_nat n mod b); intros; lia.
  rewrite Z2Nat.id by (generalize dependent (Z.of_nat n mod b); intros; lia).
  rewrite Zminus_mod_idemp_r. rewrite Z.sub_diag. apply Z.mod_0_l. lia.
Qed.

(** ** The collector loop *)

Section Collector.

Variable fromtimestamp_date : Z → Z.
Variables start_date end_date batch_size : Z.
Variable e : ending.

Local Abbreviation loop := (collect_loop fromtimestamp_date start_date end_date batch_size e).
Local Abbreviation date := (post_date fromtimestamp_date).
Local Abbreviation taken := (collected fromtimestamp_date start_date end_date).
Local Abbreviation pulled := (iterated fromtimestamp_date start_date).
Local Abbreviation halts := (stops fromtimestamp_date start_date).

(** Saving posts that include all the posts flushed so far. *)
Lemma saved_covers (f0 f : option file_content) (pd pd' : list post) :
  f0 ≠ Some Malformed →
  flushed_file batch_size f0 f pd →
  (∀ q, q ∈ pd → q ∈ pd') →
  f ≠ Some Malformed
  ∧ keep_last (rows (saved f (DataFrame_of pd')))
    = keep_last (stored_rows f0 ++ (row_of_post <$> pd')).
Proof.
  intros Hf0 Hinv Hsub.
  destruct Hinv as [[Hk0 ->]|(Hk0 & df & -> & Hdf)].
  - split; [done|].
    destruct f0 as [[df0|]|]; simpl; [|done|done].
    by rewrite keep_last_idemp.
  - split; [done|]. simpl. rewrite keep_last_idemp.
    eapply keep_last_collapse; [exact Hdf|].
    intros r (q & -> & Hq)%list_elem_of_fmap.
    apply list_elem_of_fmap_2, list_elem_of_fmap_2, Hsub.
    by eapply subseteq_take.
Qed.

Lemma flushed_file_flush (f0 f : option file_content) (pd : list post) (p : post) :
  0 < batch_size →
  f0 ≠ Some Malformed →
  flushed_file batch_size f0 f pd →
  Z.of_nat (List.length (pd ++ [p])) mod batch_size = 0 →
  f ≠ Some Malformed
  ∧ flushed_file batch_size f0
      (Some (Csv (saved f (DataFrame_of (pd ++ [p]))))) (pd ++ [p]).
Proof.
  intros Hb Hf0 Hinv Hm.
  destruct (saved_covers f0 f pd (pd ++ [p]) Hf0 Hinv) as [Hok Hrows].
  { intros q Hq. apply elem_of_app. by left. }
  split; [done|]. right.
  rewrite flushed_full by done. split.
  - rewrite length_app. simpl. lia.
  - eexists. split; [done|]. by rewrite firstn_all.
Qed.

Lemma flushed_file_keep (f0 f : option file_content) (pd : list post) (p : post) :
  0 < batch_size →
  flushed_file batch_size f0 f pd →
  Z.of_nat (List.length (pd ++ [p])) mod batch_size ≠ 0 →
  flushed_file batch_size f0 f (pd ++ [p]).
Proof.
  intros Hb Hinv Hm. unfold flushed_file in *.
  rewrite length_app in *. simpl in *. rewrite Nat.add_1_r in *.
  rewrite flushed_step by done.
  destruct (flushed_bounds batch_size (List.length pd) Hb) as (Hle & _ & _).
  by rewrite take_app_le.
Qed.

Lemma halts_cons (s : Submission) (rest : list Submission) :
  halts (s :: rest) = bool_decide (date s < start_date) || halts rest.
Proof.
  unfold stops. apply eq_true_iff_eq.
  rewrite orb_true_iff, !bool_decide_eq_true, Exists_cons. done.
Qed.

Lemma window_cons_old (s : Submission) (rest : list Submission) :
  date s < start_date →
  taken (s :: rest) = [] ∧ pulled (s :: rest) = 1%nat
  ∧ halts (s :: rest) = true.
Proof.
  intros Hold. unfold collected, iterated. rewrite halts_cons. simpl.
  rewrite decide_True, bool_decide_true by done. done.
Qed.

Lemma window_cons_in (s : Submission) (rest : list Submission) :
  ¬ date s < start_date → in_window start_date end_date (date s) →
  taken (s :: rest) = post_of fromtimestamp_date s :: taken rest
  ∧ pulled (s :: rest) = S (pulled rest)
  ∧ halts (s :: rest) = halts rest.
Proof.
  intros Hold Hin. unfold collected, iterated. rewrite halts_cons. simpl.
  rewrite decide_False, bool_decide_false by done.
  rewrite filter_cons_True by done. done.
Qed.

Lemma window_cons_out (s : Submission) (rest : list Submission) :
  ¬ date s < start_date → ¬ in_window start_date end_date (date s) →
  taken (s :: rest) = taken rest
  ∧ pulled (s :: rest) = S (pulled rest)
  ∧ halts (s :: rest) = halts rest.
Proof.
  intros Hold Hin. unfold collected, iterated. rewrite halts_cons. simpl.
  rewrite decide_False, bool_decide_false by done.
  rewrite filter_cons_False by done. done.
Qed.

(** The loop, run from a state where the file reflects the flushes so far:
    it appends the in-window posts found ahead of the first post older than
    [start_date], pulls exactly those posts and the stopping one from the
    feed, and leaves the file as the flushes of all appended posts give
    it. *)
Lemma collect_loop_spec (src : list Submission) :
  0 < batch_size →
  ∀ (pd : list post) (w : world) (f0 : option file_content),
    f0 ≠ Some Malformed →
    flushed_file batch_size f0 (file w) pd →
    ∃ f', flushed_file batch_size f0 f' (pd ++ taken src)
          ∧ loop src pd w
            = loop_end fromtimestamp_date start_date e src (pd ++ taken src)
                (mkWorld (heap w) (next w) f' (fetched w + pulled src)).
Proof.
  intros Hb. induction src as [|s rest IH]; intros pd w f0 Hf0 Hinv.
  - exists (file w). unfold collected. simpl. rewrite app_nil_r.
    split; [done|]. unfold loop_end, stops, iterated.
    rewrite bool_decide_false by (by intros ?%Exists_nil).
    simpl. rewrite Nat.add_0_r. by destruct w, e.
  - simpl. unfold mbind at 1, M_bind at 1. unfold fetch_one at 1.
    fold (post_date fromtimestamp_date s).
    destruct (Z.ltb_spec (date s) start_date) as [Hold|Hnew].
    + destruct (window_cons_old s rest Hold) as (-> & -> & Hh).
      exists (file w). rewrite app_nil_r. split; [done|].
      unfold loop_end. rewrite Hh. unfold mret, M_ret.
      by rewrite Nat.add_1_r.
    + apply Z.le_ngt in Hnew as Hnold.
      destruct ((start_date <=? date s) && (date s <=? end_date)) eqn:Hwin.
      * apply andb_true_iff in Hwin as [H1%Z.leb_le H2%Z.leb_le].
        destruct (window_cons_in s rest Hnold (conj H1 H2)) as (-> & -> & Hh).
        unfold loop_end. rewrite Hh.
        unfold mbind at 1, M_bind at 1, py_mod.
        rewrite (proj2 (Z.eqb_neq batch_size 0)) by lia.
        unfold mret at 1, M_ret at 1.
        unfold mbind at 1, M_bind at 1.
        rewrite (cons_middle _ pd), app_assoc.
        fold (post_of fromtimestamp_date s).
        match goal with
        | |- context [?m =? 0] => destruct (Z.eqb_spec m 0) as [Hm|Hm]
        end.
        -- destruct (flushed_file_flush f0 (file w) pd _ Hb Hf0 Hinv Hm)
             as [Hok Hinv'].
           rewrite save_posts_to_csv_ok by done. unfold with_file.
           cbv beta iota. cbn [heap next file fetched].
           destruct (IH _ (mkWorld (heap w) (next w) _ (S (fetched w))) f0
                       Hf0 Hinv') as (f' & Hf' & Heq).
           exists f'. split; [done|]. etrans; [exact Heq|].
           unfold loop_end. cbn [heap next file fetched].
           by rewrite Nat.add_succ_r.
        -- unfold mret at 1, M_ret at 1.
           destruct (IH (pd ++ [post_of fromtimestamp_date s])
                       (mkWorld (heap w) (next w) (file w) (S (fetched w))) f0
                       Hf0) as (f' & Hf' & Heq).
           { by apply flushed_file_keep. }
           exists f'. split; [done|]. etrans; [exact Heq|].
           unfold loop_end. cbn [heap next file fetched].
           by rewrite Nat.add_succ_r.
      * assert (¬ in_window start_date end_date (date s)) as Hout.
        { intros [H1%Z.leb_le H2%Z.leb_le]. by rewrite H1, H2 in Hwin. }
        destruct (window_cons_out s rest Hnold Hout) as (-> & -> & Hh).
        unfold loop_end. rewrite Hh.
        destruct (IH pd (mkWorld (heap w) (next w) (file w) (S (fetched w))) f0
                    Hf0 Hinv) as (f' & Hf' & Heq).
        exists f'. split; [done|]. etrans; [exact Heq|].
        unfold loop_end. cbn [heap next file fetched].
        by rewrite Nat.add_succ_r.
Qed.

(** One step of the loop on a post newer than the window: the post is
    pulled and skipped, and the iteration goes on. *)
Lemma collect_loop_skip (s : Submission) (rest : list Submission)
    (pd : list post) (w : world) :
  start_date ≤ end_date → end_date < date s →
  loop (s :: rest) pd w
  = loop rest pd (mkWorld (heap w) (next w) (file w) (S (fetched w))).
Proof.
  intros Hse Hnew. simpl. unfold mbind at 1, M_bind at 1, fetch_one at 1.
  fold (post_date fromtimestamp_date s).
  rewrite (proj2 (Z.ltb_ge (date s) start_date)) by lia.
  rewrite (proj2 (Z.leb_gt (date s) end_date)) by lia.
  by rewrite andb_false_r.
Qed.

(** One step of the loop on a post in the window that brings the count to
    a multiple of the batch size: everything collected so far is saved. *)
Lemma collect_loop_flush (s : Submission) (rest : list Submission)
    (pd : list post) (w : world) :
  batch_size ≠ 0 → file w ≠ Some Malformed →
  in_window start_date end_date (date s) →
  Z.of_nat (List.length (pd ++ [post_of fromtimestamp_date s])) mod batch_size = 0 →
  loop (s :: rest) pd w
  = loop rest (pd ++ [post_of fromtimestamp_date s])
      (mkWorld (heap w) (next w)
         (Some (Csv (saved (file w)
                       (DataFrame_of (pd ++ [post_of fromtimestamp_date s])))))
         (S (fetched w))).
Proof.
  intros Hb Hf [H1 H2] Hm. simpl.
  unfold mbind at 1, M_bind at 1, fetch_one at 1.
  fold (post_date fromtimestamp_date s).
  rewrite (proj2 (Z.ltb_ge (date s) start_date)) by lia.
  rewrite (proj2 (Z.leb_le start_date (date s))) by lia.
  rewrite (proj2 (Z.leb_le (date s) end_date)) by lia. simpl.
  unfold mbind at 1, M_bind at 1, py_mod.
  rewrite (proj2 (Z.eqb_neq batch_size 0)) by done.
  unfold mret at 1, M_ret at 1. unfold mbind at 1, M_bind at 1.
  fold (post_of fromtimestamp_date s).
  match goal with
  | |- context [?m =? 0] => replace (m =? 0) with true
      by (symmetry; apply Z.eqb_eq; exact Hm)
  end.
  by rewrite save_posts_to_csv_ok.
Qed.

(** Whatever the loop returns extends [posts_data] by posts dated in the
    window. *)
Lemma collect_loop_window (src : list Submission) :
  ∀ (pd pd' : list post) (w w' : world),
    loop src pd w = Ret pd' w' →
    ∃ new, pd' = pd ++ new
           ∧ Forall (λ p, in_window start_date end_date (Date (row_of_post p))) new.
Proof.
  induction src as [|s rest IH]; intros pd pd' w w'; simpl.
  - destruct e; [|done]. intros [= <- <-]. exists []. by rewrite app_nil_r.
  - unfold mbind at 1, M_bind at 1, fetch_one at 1.
    destruct (Z.ltb_spec (fromtimestamp_date (created_utc s)) start_date).
    + intros [= <- <-]. exists []. by rewrite app_nil_r.
    + destruct ((start_date <=? _) && (_ <=? end_date)) eqn:Hwin.
      * apply andb_true_iff in Hwin as [H1%Z.leb_le H2%Z.leb_le].
        unfold mbind at 1, M_bind at 1, py_mod.
        destruct (batch_size =? 0); [done|].
        unfold mret at 1, M_ret at 1. unfold mbind at 1, M_bind at 1.
        match goal with
        | |- context [if ?c then save_posts_to_csv ?df else _] =>
            destruct c; [destruct (save_posts_to_csv df _) as [[] w1|]; [|done]|
                         unfold mret at 1, M_ret at 1]
        end.
        all: intros (new & -> & Hnew)%IH; eexists (_ :: new);
          rewrite <- app_assoc; (split; [done|]);
          constructor; [by split|done].
      * apply IH.
Qed.

End Collector.

(** ** The collector *)

Section Collect.

Variable fromtimestamp_date : Z → Z.
Variables start_date end_date batch_size : Z.

Local Abbreviation collect :=
  (λ src, get_reddit_posts_for_date fromtimestamp_date src
            start_date end_date batch_size).
Local Abbreviation date := (post_date fromtimestamp_date).
Local Abbreviation taken := (collected fromtimestamp_date start_date end_date).
Local Abbreviation pulled := (iterated fromtimestamp_date start_date).
Local Abbreviation halts := (stops fromtimestamp_date start_date).

Lemma flushed_file_init (f0 : option file_content) :
  flushed_file batch_size f0 f0 [].
Proof. left. split; [|done]. unfold flushed. simpl. by rewrite Zmod_0_l. Qed.

(** When the loop ends normally the collector returns the posts taken,
    after a last save when there are any. *)
Lemma collect_returns (src : feed) (w : world) :
  0 < batch_size → file w ≠ Some Malformed →
  halts (items src) = true ∨ at_end src = Exhausted →
  ∃ f', collect src w
        = Ret (DataFrame_of (taken (items src)))
            (mkWorld (heap w) (next w) f' (fetched w + pulled (items src)))
        ∧ (taken (items src) = [] → f' = file w)
        ∧ (taken (items src) ≠ [] →
           ∃ df, f' = Some (Csv df)
                 ∧ keep_last (rows df)
                   = keep_last (stored_rows (file w)
                                ++ (row_of_post <$> taken (items src)))).
Proof.
  intros Hb Hf Hend. unfold get_reddit_posts_for_date.
  destruct (collect_loop_spec fromtimestamp_date start_date end_date
              batch_size (at_end src) (items src) Hb [] w (file w) Hf
              (flushed_file_init _)) as (f' & Hinv & Heq).
  rewrite app_nil_l in *.
  unfold mbind at 1, M_bind at 1. rewrite Heq.
  assert (loop_end fromtimestamp_date start_date (at_end src) (items src)
            (taken (items src))
            (mkWorld (heap w) (next w) f' (fetched w + pulled (items src)))
          = Ret (taken (items src))
              (mkWorld (heap w) (next w) f' (fetched w + pulled (items src))))
    as ->.
  { unfold loop_end. destruct Hend as [->| ->]; [done|]. by destruct (halts _). }
  destruct (saved_covers batch_size (file w) f' _ (taken (items src)) Hf Hinv)
    as [Hok Hrows]; [done|].
  destruct (taken (items src)) as [|p pd] eqn:Htaken.
  - exists f'. split; [done|]. split; [|done]. intros _.
    destruct Hinv as [[_ ->]|[Hk _]]; [done|]. by destruct Hk.
  - unfold mbind at 1, M_bind at 1.
    rewrite save_posts_to_csv_ok by done. unfold with_file.
    cbn [heap next file fetched].
    eexists. split; [done|]. split; [done|]. intros _.
    eexists. split; [done|]. exact Hrows.
Qed.

(** When the feed fails before any post older than [start_date] shows up,
    the failure leaves the collector; the file is as the flushes left it. *)
Lemma collect_raises (src : feed) (w : world) :
  0 < batch_size → file w ≠ Some Malformed →
  halts (items src) = false → at_end src = Fails →
  ∃ f', collect src w
        = Raise SourceError
            (mkWorld (heap w) (next w) f' (fetched w + pulled (items src)))
        ∧ flushed_file batch_size (file w) f' (taken (items src)).
Proof.
  intros Hb Hf Hh He. unfold get_reddit_posts_for_date.
  destruct (collect_loop_spec fromtimestamp_date start_date end_date
              batch_size (at_end src) (items src) Hb [] w (file w) Hf
              (flushed_file_init _)) as (f' & Hinv & Heq).
  rewrite app_nil_l in *.
  unfold mbind at 1, M_bind at 1. rewrite Heq.
  unfold loop_end. rewrite Hh, He. by exists f'.
Qed.

Lemma before_stop_all (src : list Submission) :
  Forall (λ s, start_date ≤ date s) src →
  before_stop fromtimestamp_date start_date src = src
  ∧ halts src = false.
Proof.
  induction 1 as [|s rest Hs Hrest [IH1 IH2]].
  - split; [done|]. unfold stops.
    by rewrite bool_decide_false by (by intros ?%Exists_nil).
  - rewrite halts_cons. simpl. rewrite IH1, IH2.
    rewrite decide_False, bool_decide_false by lia. done.
Qed.

Lemma before_stop_split (pre rest : list Submission) (s : Submission) :
  Forall (λ x, start_date ≤ date x) pre → date s < start_date →
  before_stop fromtimestamp_date start_date (pre ++ s :: rest) = pre
  ∧ halts (pre ++ s :: rest) = true.
Proof.
  intros Hpre Hs. induction Hpre as [|x pre Hx Hpre [IH1 IH2]].
  - simpl. rewrite halts_cons.
    rewrite decide_True, bool_decide_true by done. done.
  - simpl. rewrite halts_cons. fold (date x). rewrite IH1, IH2.
    rewrite decide_False by lia. by rewrite orb_true_r.
Qed.

End Collect.

Section CollectorClaims.

Variable fromtimestamp_date : Z → Z.
Variables start_date end_date batch_size : Z.

Local Abbreviation collect :=
  (λ src, get_reddit_posts_for_date fromtimestamp_date src
            start_date end_date batch_size).
Local Abbreviation date := (post_date fromtimestamp_date).
Local Abbreviation taken := (collected fromtimestamp_date start_date end_date).

(** C3 (as amended): the collector ends the iteration at the first post
    dated strictly before [start_date].  That post is pulled from the feed
    (its date is what stops the loop) and is the last one pulled; neither it
    nor anything behind it is appended, so the result is the in-window part
    of the posts ahead of it, whatever follows in the feed.  For posts dated
    10, 9, 8, 7 with [start_date = 8] and [end_date = 9], the collector
    returns the posts dated 9 and 8 and has pulled all four posts, and none
    behind them. *)
Theorem collect_stops_at_first_older (src : feed)
    (pre rest : list Submission) (s : Submission) (w : world) :
  0 < batch_size → file w ≠ Some Malformed →
  items src = pre ++ s :: rest →
  Forall (λ x, start_date ≤ date x) pre → date s < start_date →
  (∃ f', collect src w
         = Ret (DataFrame_of (post_of fromtimestamp_date <$>
                  filter (λ x, in_window start_date end_date (date x)) pre))
             (mkWorld (heap w) (next w) f' (fetched w + S (List.length pre))))
  ∧ (∀ (s10 s9 s8 s7 : Submission) (behind : list Submission) (e : ending),
       date s10 = 10 → date s9 = 9 → date s8 = 8 → date s7 = 7 →
       start_date = 8 → end_date = 9 →
       ∃ f', collect (mkFeed (s10 :: s9 :: s8 :: s7 :: behind) e) w
             = Ret (DataFrame_of [post_of fromtimestamp_date s9;
                                  post_of fromtimestamp_date s8])
                 (mkWorld (heap w) (next w) f' (fetched w + 4))).
Proof.
  intros Hb Hf Hitems Hpre Hs.
  assert (∀ (src' : feed) (pre' rest' : list Submission) (s' : Submission),
            items src' = pre' ++ s' :: rest' →
            Forall (λ x, start_date ≤ date x) pre' → date s' < start_date →
            ∃ f', collect src' w
                  = Ret (DataFrame_of (post_of fromtimestamp_date <$>
                           filter (λ x, in_window start_date end_date (date x)) pre'))
                      (mkWorld (heap w) (next w) f'
                         (fetched w + S (List.length pre')))) as Hgen.
  { clear Hitems Hpre Hs. intros src' pre' rest' s' Hitems Hpre Hs.
    destruct (before_stop_split fromtimestamp_date start_date pre' rest' s'
                Hpre Hs) as [Hbefore Hhalts].
    destruct (collect_returns fromtimestamp_date start_date end_date
                batch_size src' w Hb Hf) as (f' & Heq & _).
    { left. by rewrite Hitems. }
    exists f'. rewrite Heq. unfold collected, iterated.
    rewrite Hitems, Hbefore, Hhalts. by rewrite Nat.add_1_r. }
  split; [by eapply Hgen|].
  intros s10 s9 s8 s7 behind e H10 H9 H8 H7 -> ->.
  destruct (Hgen (mkFeed (s10 :: s9 :: s8 :: s7 :: behind) e)
              [s10; s9; s8] behind s7) as (f' & Heq).
  - done.
  - repeat constructor; lia.
  - lia.
  - exists f'. rewrite Heq. f_equal. f_equal.
    rewrite filter_cons_False by (unfold in_window; lia).
    rewrite filter_cons_True by (unfold in_window; lia).
    rewrite filter_cons_True by (unfold in_window; lia).
    done.
Qed.

(** C4: every post the collector returns is dated within
    [start_date .. end_date], so with [start_date = end_date = D] it only
    returns posts dated [D]; when the loop ends normally the collector does
    return, namely the in-window posts found before the stop; and a post
    newer than [end_date] is skipped while the iteration goes on. *)
Theorem collect_window_filter (src : feed) (w : world) :
  (∀ (df : DataFrame) (w' : world),
     collect src w = Ret df w' →
     Forall (λ r, in_window start_date end_date (Date r)) (rows df)
     ∧ (start_date = end_date → Forall (λ r, Date r = start_date) (rows df)))
  ∧ (0 < batch_size → file w ≠ Some Malformed →
     stops fromtimestamp_date start_date (items src) = true
       ∨ at_end src = Exhausted →
     ∃ w', collect src w = Ret (DataFrame_of (taken (items src))) w')
  ∧ (∀ (s : Submission) (rest : list Submission) (e : ending)
       (pd : list post) (w0 : world),
       start_date ≤ end_date → end_date < date s →
       collect_loop fromtimestamp_date start_date end_date batch_size e
         (s :: rest) pd w0
       = collect_loop fromtimestamp_date start_date end_date batch_size e
           rest pd (mkWorld (heap w0) (next w0) (file w0) (S (fetched w0)))).
Proof.
  split_and!.
  - intros df w' Hret.
    assert (Forall (λ r, in_window start_date end_date (Date r)) (rows df))
      as Hwin.
    { unfold get_reddit_posts_for_date in Hret.
      unfold mbind at 1, M_bind at 1 in Hret.
      destruct (collect_loop _ _ _ _ _ _ _ _) as [pd w1|] eqn:Hloop; [|done].
      apply collect_loop_window in Hloop as (new & -> & Hnew).
      unfold mbind at 1, M_bind at 1 in Hret. rewrite app_nil_l in Hret.
      assert (df = DataFrame_of new) as ->.
      { destruct new as [|p new]; [by injection Hret as <- _|].
        destruct (save_posts_to_csv _ w1); [|done]. by injection Hret as <- _. }
      simpl. rewrite Forall_fmap. exact Hnew. }
    split; [done|]. intros <-.
    eapply Forall_impl; [exact Hwin|]. unfold in_window. intros; simpl in *; lia.
  - intros Hb Hf Hend.
    destruct (collect_returns fromtimestamp_date start_date end_date
                batch_size src w Hb Hf Hend) as (f' & Heq & _).
    eauto.
  - intros. by apply collect_loop_skip.
Qed.

End CollectorClaims.

(** ** Grouping *)

Lemma elem_of_insert_key (d d' : Z) (ks : list Z) :
  d' ∈ insert_key d ks ↔ d' = d ∨ d' ∈ ks.
Proof.
  induction ks as [|k ks IH]; simpl.
  - rewrite elem_of_cons. done.
  - destruct (Z.ltb_spec d k); [by rewrite elem_of_cons|].
    destruct (Z.eqb_spec d k) as [->|Hne].
    + rewrite elem_of_cons. tauto.
    + rewrite !elem_of_cons, IH. tauto.
Qed.

Lemma elem_of_group_keys (d : Z) (ds : list Z) : d ∈ group_keys ds ↔ d ∈ ds.
Proof.
  induction ds as [|d' ds IH]; simpl; [done|].
  rewrite elem_of_insert_key, elem_of_cons, IH. done.
Qed.

Section Aggregation.

Variable score : string → Q.

Lemma rows_analyzed (df : DataFrame) :
  rows (analyzed score df) = scored score <$> rows df.
Proof.
  unfold analyzed. simpl. rewrite <- !list_fmap_compose.
  by apply list_fmap_ext.
Qed.

Lemma dated_scored (d : Z) (l : list Row) :
  dated d (scored score <$> l) = scored score <$> dated d l.
Proof.
  unfold dated. induction l as [|r l IH]; [done|].
  rewrite fmap_cons. destruct (decide (Date r = d)) as [Hd|Hd].
  - rewrite !filter_cons_True by done. by rewrite fmap_cons, IH.
  - rewrite !filter_cons_False by done. done.
Qed.

Lemma nan_mean_scored (l : list Row) :
  l ≠ [] →
  nan_mean (Overall_Sentiment <$> (scored score <$> l))
  = Some (arith_mean (overallSentiment score <$> l)).
Proof.
  intros Hl.
  assert (omap id (Overall_Sentiment <$> (scored score <$> l))
          = overallSentiment score <$> l) as Heq.
  { clear Hl. induction l as [|r l IH]; [done|]. simpl. f_equal. exact IH. }
  unfold nan_mean. rewrite Heq. by destruct l.
Qed.

Lemma elem_of_add_column (c c' : string) (cols : list string) :
  c ∈ add_column c' cols ↔ c = c' ∨ c ∈ cols.
Proof.
  unfold add_column. case_decide.
  - split; [auto|]. by intros [->|].
  - rewrite elem_of_app, elem_of_cons, elem_of_nil. tauto.
Qed.

Lemma columns_analyzed (df : DataFrame) (c : string) :
  c ∈ columns (analyzed score df) ↔ c ∈ derived_columns ∨ c ∈ columns df.
Proof.
  unfold analyzed, derived_columns. simpl.
  rewrite !elem_of_add_column, !elem_of_cons, elem_of_nil. tauto.
Qed.

(** The aggregation on the object at [posts_df]: it leaves the three
    derived columns on that object and returns the grouped means. *)
Lemma analyze_daily_sentiment_run (posts_df : nat) (df : DataFrame) (w : world) :
  heap w !! posts_df = Some df →
  analyze_daily_sentiment score posts_df w
  = Ret (groupby_Date_mean (analyzed score df))
      (mkWorld (<[posts_df := analyzed score df]> (heap w))
         (next w) (file w) (fetched w)).
Proof.
  intros Hdf. unfold analyze_daily_sentiment.
  unfold mbind, M_bind, modify, deref. rewrite Hdf. cbn [heap next file fetched].
  rewrite lookup_insert_eq. cbn [heap next file fetched].
  rewrite lookup_insert_eq. cbn [heap next file fetched].
  rewrite lookup_insert_eq. unfold mret, M_ret, analyzed.
  by rewrite !insert_insert_eq.
Qed.

End Aggregation.

Section AggregationClaims.

Variable score : string → Q.

(** C10: the aggregation changes the frame it is given.  After the call the
    object at the caller's reference has the columns [Sentiment_Title],
    [Sentiment_Text] and [Overall_Sentiment], next to the ones it had, and
    its rows carry the scores; a frame that had only the raw columns is
    therefore no longer the frame it was.  No other object and nothing in
    the file changes. *)
Theorem analyze_daily_sentiment_mutates (posts_df : nat) (df : DataFrame)
    (w : world) :
  heap w !! posts_df = Some df →
  ∃ daily w' df',
    analyze_daily_sentiment score posts_df w = Ret daily w'
    ∧ heap w' !! posts_df = Some df'
    ∧ (∀ c, c ∈ derived_columns → c ∈ columns df')
    ∧ (∀ c, c ∈ columns df → c ∈ columns df')
    ∧ rows df' = scored score <$> rows df
    ∧ (columns df = raw_columns →
       columns df' = raw_columns ++ derived_columns ∧ df' ≠ df)
    ∧ (∀ r, r ≠ posts_df → heap w' !! r = heap w !! r)
    ∧ file w' = file w.
Proof.
  intros Hdf. eexists _, _, _.
  split; [by apply analyze_daily_sentiment_run|]. cbn [heap next file fetched].
  split; [by rewrite lookup_insert_eq|].
  split_and!.
  - intros c Hc. apply columns_analyzed. by left.
  - intros c Hc. apply columns_analyzed. by right.
  - apply rows_analyzed.
  - intros Hcols.
    assert (columns (analyzed score df) = raw_columns ++ derived_columns)
      as Hnew by (unfold analyzed; simpl; by rewrite Hcols).
    split; [done|]. intros Heq. rewrite Heq, Hcols in Hnew. done.
  - intros r Hr. by rewrite lookup_insert_ne.
  - done.
Qed.

End AggregationClaims.

(** ** The aggregation over [Date] cells of both kinds *)

Lemma elem_of_insert_cell (c c' : DateCell) (ks : list DateCell) :
  c' ∈ insert_cell c ks ↔ c' = c ∨ c' ∈ ks.
Proof.
  induction ks as [|k ks IH]; simpl.
  - rewrite elem_of_cons. done.
  - destruct (cell_ltb c k); [by rewrite elem_of_cons|].
    destruct (decide (c = k)) as [->|Hne].
    + rewrite elem_of_cons. tauto.
    + rewrite !elem_of_cons, IH. tauto.
Qed.

Lemma elem_of_cell_keys (c : DateCell) (cs : list DateCell) :
  c ∈ cell_keys cs ↔ c ∈ cs.
Proof.
  induction cs as [|c' cs IH]; simpl; [done|].
  rewrite elem_of_insert_cell, elem_of_cons, IH. done.
Qed.

(** On dates that are all [datetime.date]s the keys are the ones of
    [group_keys]. *)
Lemma cell_keys_date_obj (ds : list Z) :
  cell_keys (date_obj <$> ds) = date_obj <$> group_keys ds.
Proof.
  induction ds as [|d ds IH]; [done|].
  rewrite fmap_cons. simpl. rewrite IH. clear IH.
  induction (group_keys ds) as [|k ks IH]; [done|].
  rewrite fmap_cons. simpl.
  destruct (Z.ltb_spec d k); [done|].
  destruct (Z.eqb_spec d k) as [->|Hne].
  - by rewrite decide_True.
  - rewrite decide_False by congruence. by rewrite IH.
Qed.

(** Two elements of a list with the same image are the same element when
    the images have no duplicate. *)
Lemma NoDup_fmap_eq {A B : Type} (f : A → B) (l : list A) (x y : A) :
  NoDup (f <$> l) → x ∈ l → y ∈ l → f x = f y → x = y.
Proof.
  induction l as [|a l IH]; intros Hnd Hx Hy Heq.
  - by apply elem_of_nil in Hx.
  - rewrite fmap_cons in Hnd. apply NoDup_cons in Hnd as [Hn Hnd].
    apply elem_of_cons in Hx as [->|Hx]; apply elem_of_cons in Hy as [->|Hy].
    + done.
    + exfalso. apply Hn. rewrite Heq. apply list_elem_of_fmap. eauto.
    + exfalso. apply Hn. rewrite <- Heq. apply list_elem_of_fmap. eauto.
    + by apply IH.
Qed.

Section CellAggregation.

Variable score : string → Q.

Lemma assigned_rows (l : list CellRow) :
  assigned score l = (λ r : Row * bool, (scored score r.1, r.2)) <$> l.
Proof.
  unfold assigned.
  change (set_Overall_Sentiment _)
    with (analyzed score (mkDataFrame raw_columns l.*1)).
  rewrite rows_analyzed. cbn [rows].
  induction l as [|[r k] l IH]; [done|].
  rewrite !fmap_cons. cbn [zip zip_with fst snd]. by rewrite IH.
Qed.

Lemma cell_dated_scored (c : DateCell) (l : list CellRow) :
  (cell_dated c ((λ r : Row * bool, (scored score r.1, r.2)) <$> l)).*1
  = scored score <$> (cell_dated c l).*1.
Proof.
  unfold cell_dated. induction l as [|r l IH]; [done|].
  rewrite fmap_cons. destruct (decide (Date_cell r = c)) as [Hc|Hc].
  - rewrite !filter_cons_True by done. by rewrite !fmap_cons, IH.
  - rewrite !filter_cons_False by done. done.
Qed.

(** The series of a frame, in terms of its rows: one entry per [Date] cell
    that occurs, with the mean over the rows that hold that very cell. *)
Lemma analyze_cells_series (l : list CellRow) :
  (analyze_daily_sentiment_cells score l).2
  = (λ c, (c, Some (arith_mean
                      (overallSentiment score <$> (cell_dated c l).*1))))
      <$> cell_keys (Date_cell <$> l).
Proof.
  unfold analyze_daily_sentiment_cells, groupby_Date_cell_mean. cbn [snd].
  rewrite assigned_rows.
  assert (Date_cell <$> ((λ r : Row * bool, (scored score r.1, r.2)) <$> l)
          = Date_cell <$> l) as ->.
  { rewrite <- list_fmap_compose. by apply list_fmap_ext. }
  apply list_fmap_ext. intros i c Hc. f_equal.
  rewrite cell_dated_scored. apply nan_mean_scored.
  apply list_elem_of_lookup_2, elem_of_cell_keys, list_elem_of_fmap in Hc
    as (r & -> & Hr).
  apply (elem_of_not_nil r.1). apply list_elem_of_fmap. exists r.
  split; [done|]. unfold cell_dated. by apply list_elem_of_filter.
Qed.

(** On rows that were all just collected the series is the one of
    [groupby_Date_mean], with [datetime.date] keys. *)
Lemma analyze_cells_all_dates (cols : list string) (l : list Row) :
  (analyze_daily_sentiment_cells score (all_dates l)).2
  = prod_map date_obj id
      <$> groupby_Date_mean (analyzed score (mkDataFrame cols l)).
Proof.
  rewrite analyze_cells_series. unfold groupby_Date_mean.
  rewrite rows_analyzed. simpl.
  assert (Date_cell <$> all_dates l = date_obj <$> (Date <$> l)) as ->.
  { unfold all_dates. rewrite <- !list_fmap_compose. by apply list_fmap_ext. }
  assert (Date <$> (scored score <$> l) = Date <$> l) as ->.
  { rewrite <- list_fmap_compose. by apply list_fmap_ext. }
  rewrite cell_keys_date_obj, <- !list_fmap_compose.
  apply list_fmap_ext. intros i d Hd. unfold prod_map. simpl. f_equal.
  rewrite dated_scored.
  assert ((cell_dated (date_obj d) (all_dates l)).*1 = dated d l) as ->.
  { unfold cell_dated, dated, all_dates. clear Hd.
    induction l as [|r l IH]; [done|].
    rewrite fmap_cons. destruct (decide (Date r = d)) as [Hr|Hr].
    - rewrite !filter_cons_True by (by unfold Date_cell; simpl; f_equal).
      by rewrite fmap_cons, IH.
    - rewrite !filter_cons_False; [done|done|].
      unfold Date_cell. simpl. congruence. }
  symmetry. apply nan_mean_scored.
  apply list_elem_of_lookup_2, elem_of_group_keys, list_elem_of_fmap in Hd
    as (r & -> & Hr).
  apply (elem_of_not_nil r). unfold dated. by apply list_elem_of_filter.
Qed.

(** C5 (the code departs from it): [analyze_daily_sentiment] groups by the
    [Date] cell, not by the calendar date.  When the frame holds, for one
    day [d], a row whose date is a [datetime.date] and a row whose date is
    the text read back from the file, the series has two entries for [d]:
    one with the mean over the rows of [d] of the first kind only, one
    with the mean over the rows of the second kind only.  For the posts
    ("a", "b") and ("c", "d") of one day, with overall sentiments 1 and -1,
    the first kept from the file and the second just collected, the series
    is the two entries 1 and -1 for that day, and no entry 0. *)
Theorem daily_series_splits_mixed_day (l : list CellRow) (d : Z)
    (r1 r2 : Row) :
  (r1, false) ∈ l → (r2, true) ∈ l → Date r1 = d → Date r2 = d →
  (date_obj d,
   Some (arith_mean
           (overallSentiment score <$> (cell_dated (date_obj d) l).*1)))
    ∈ (analyze_daily_sentiment_cells score l).2
  ∧ (date_text d,
     Some (arith_mean
             (overallSentiment score <$> (cell_dated (date_text d) l).*1)))
      ∈ (analyze_daily_sentiment_cells score l).2
  ∧ ¬ NoDup (day_of <$> (analyze_daily_sentiment_cells score l).2.*1).
Proof.
  intros H1 H2 Hd1 Hd2. rewrite analyze_cells_series.
  assert (date_obj d ∈ cell_keys (Date_cell <$> l)) as Hobj.
  { apply elem_of_cell_keys, list_elem_of_fmap. exists (r1, false).
    split; [|done]. unfold Date_cell. simpl. by rewrite Hd1. }
  assert (date_text d ∈ cell_keys (Date_cell <$> l)) as Htext.
  { apply elem_of_cell_keys, list_elem_of_fmap. exists (r2, true).
    split; [|done]. unfold Date_cell. simpl. by rewrite Hd2. }
  split_and!.
  - apply list_elem_of_fmap. by exists (date_obj d).
  - apply list_elem_of_fmap. by exists (date_text d).
  - rewrite <- !list_fmap_compose. intros Hnd.
    by pose proof (NoDup_fmap_eq _ _ _ _ Hnd Hobj Htext eq_refl).
Qed.

End CellAggregation.

(** ** The driver *)

Section Driver.

Variable fromtimestamp_date : Z → Z.
Variable score : string → Q.

Local Abbreviation run := (main fromtimestamp_date score).

Lemma load_posts_from_csv_ok (w : world) :
  file w ≠ Some Malformed →
  load_posts_from_csv w = Ret (loaded (file w)) w.
Proof.
  intros Hf. unfold load_posts_from_csv, mbind, M_bind, read_file.
  destruct (file w) as [[df|]|]; done.
Qed.

(** A run in which the collection ends normally: the frame that is
    aggregated, and then saved, is the merge of the loaded store with the
    collected posts when some were collected, and the collected (empty)
    frame itself otherwise. *)
Lemma main_run (today : Z) (src : feed) (w : world) :
  file w ≠ Some Malformed →
  stops fromtimestamp_date (today - 50) (items src) = true
    ∨ at_end src = Exhausted →
  let collected_df :=
    DataFrame_of (collected fromtimestamp_date (today - 50) today (items src)) in
  let posts_df :=
    if negb (empty collected_df) then merge (loaded (file w)) collected_df
    else collected_df in
  ∃ w' f',
    run today src w = Ret (groupby_Date_mean (analyzed score posts_df)) w'
    ∧ f' ≠ Some Malformed
    ∧ file w' = Some (Csv (saved f' (analyzed score posts_df)))
    ∧ (collected fromtimestamp_date (today - 50) today (items src) = [] →
       f' = file w).
Proof.
  intros Hf Hend collected_df posts_df. unfold main.
  unfold mbind at 1, M_bind at 1. unfold mbind at 1, M_bind at 1.
  rewrite load_posts_from_csv_ok by done. unfold alloc at 1.
  unfold mbind at 1, M_bind at 1. unfold mbind at 1, M_bind at 1.
  set (w1 := mkWorld (<[next w := loaded (file w)]> (heap w)) (S (next w))
               (file w) (fetched w)).
  destruct (collect_returns fromtimestamp_date (today - 50) today 100 src w1)
    as (f' & Hcollect & Hnone & Hsome); [lia|done|done|].
  rewrite Hcollect. fold collected_df.
  assert (f' ≠ Some Malformed) as Hf'.
  { destruct (collected _ _ _ _) as [|p pd] eqn:Hc.
    - by rewrite Hnone.
    - destruct Hsome as (df & -> & _); done. }
  unfold alloc at 1. cbn [heap next file fetched].
  unfold mbind at 1, M_bind at 1, deref at 1. cbn [heap next file fetched].
  rewrite lookup_insert_eq.
  unfold mbind at 1, M_bind at 1.
  unfold posts_df. subst w1. cbn [heap next file fetched].
  destruct (empty collected_df); cbn [negb]; cbv beta iota.
  - unfold mret at 1, M_ret at 1. unfold mbind at 1, M_bind at 1.
    erewrite analyze_daily_sentiment_run
      by (cbn [heap]; apply lookup_insert_eq).
    cbn [heap next file fetched].
    unfold mbind at 1, M_bind at 1, deref at 1. cbn [heap next file fetched].
    rewrite lookup_insert_eq.
    unfold mbind at 1, M_bind at 1.
    rewrite save_posts_to_csv_ok by done. unfold with_file.
    cbn [heap next file fetched].
    eexists _, f'. split; [done|]. split; [done|]. split; [done|].
    intros Hc. apply Hnone. exact Hc.
  - unfold mbind at 1, M_bind at 1, deref at 1. cbn [heap next file fetched].
    rewrite lookup_insert_ne by lia. rewrite lookup_insert_eq.
    unfold alloc at 1. cbn [heap next file fetched].
    unfold mbind at 1, M_bind at 1.
    erewrite analyze_daily_sentiment_run
      by (cbn [heap]; apply lookup_insert_eq).
    cbn [heap next file fetched].
    unfold mbind at 1, M_bind at 1, deref at 1. cbn [heap next file fetched].
    rewrite lookup_insert_eq.
    unfold mbind at 1, M_bind at 1.
    rewrite save_posts_to_csv_ok by done. unfold with_file.
    cbn [heap next file fetched].
    eexists _, f'. split; [done|]. split; [done|]. split; [done|].
    intros Hc. apply Hnone. exact Hc.
Qed.

(** A run in which the feed fails: [main] raises the failure of the
    collector, and the file stays as the flushes left it. *)
Lemma main_raises (today : Z) (src : feed) (w : world) :
  file w ≠ Some Malformed →
  stops fromtimestamp_date (today - 50) (items src) = false →
  at_end src = Fails →
  ∃ w', run today src w = Raise SourceError w'
        ∧ flushed_file 100 (file w) (file w')
            (collected fromtimestamp_date (today - 50) today (items src)).
Proof.
  intros Hf Hh He. unfold main.
  unfold mbind at 1, M_bind at 1. unfold mbind at 1, M_bind at 1.
  rewrite load_posts_from_csv_ok by done. unfold alloc at 1.
  unfold mbind at 1, M_bind at 1. unfold mbind at 1, M_bind at 1.
  destruct (collect_raises fromtimestamp_date (today - 50) today 100 src
              (mkWorld (<[next w := loaded (file w)]> (heap w)) (S (next w))
                 (file w) (fetched w)))
    as (f' & -> & Hinv); [lia|done|done|done|].
  eexists. split; [done|]. exact Hinv.
Qed.

Lemma columns_saved (f : option file_content) (df : DataFrame) (c : string) :
  c ∈ columns df → c ∈ columns (saved f df).
Proof.
  intros Hc. destruct f as [[existing|]|]; simpl; [|done|done].
  unfold concat_columns. rewrite elem_of_app, list_elem_of_filter.
  destruct (decide (c ∈ columns existing)); auto.
Qed.

(** C6 (what the code does): in a run whose collection ends normally, the
    emitted series is the aggregation of [merge(loaded, collected)] when
    at least one post was collected.  When none was collected the merge is
    skipped, the empty collected frame is aggregated, and the emitted series
    is empty whatever the loaded store holds. *)
Theorem main_series_of_aggregated_frame (today : Z) (src : feed) (w : world) :
  file w ≠ Some Malformed →
  stops fromtimestamp_date (today - 50) (items src) = true
    ∨ at_end src = Exhausted →
  let collected_df :=
    DataFrame_of (collected fromtimestamp_date (today - 50) today (items src)) in
  ∃ daily w',
    run today src w = Ret daily w'
    ∧ (rows collected_df ≠ [] →
       daily = groupby_Date_mean
                 (analyzed score (merge (loaded (file w)) collected_df)))
    ∧ (rows collected_df = [] → daily = []).
Proof.
  intros Hf Hend collected_df.
  destruct (main_run today src w Hf Hend) as (w' & f' & Hrun & _).
  eexists _, w'. split; [exact Hrun|].
  fold collected_df. split; intros Hrows.
  - assert (empty collected_df = false) as ->; [|done].
    unfold empty. by destruct (rows collected_df).
  - assert (empty collected_df = true) as ->
      by (unfold empty; by rewrite Hrows).
    cbn [negb]. cbv beta iota.
    unfold groupby_Date_mean. by rewrite rows_analyzed, Hrows.
Qed.

(** C7 (what the code does): after every run whose collection ends
    normally, the table in the file has the columns [Sentiment_Title],
    [Sentiment_Text] and [Overall_Sentiment]: the frame saved at the end of
    [main] is the object the aggregation has extended in place. *)
Theorem main_saves_derived_columns (today : Z) (src : feed) (w : world) :
  file w ≠ Some Malformed →
  stops fromtimestamp_date (today - 50) (items src) = true
    ∨ at_end src = Exhausted →
  ∃ daily w' df,
    run today src w = Ret daily w'
    ∧ file w' = Some (Csv df)
    ∧ ∀ c, c ∈ derived_columns → c ∈ columns df.
Proof.
  intros Hf Hend.
  destruct (main_run today src w Hf Hend) as (w' & f' & Hrun & _ & Hfile & _).
  eexists _, w', _. split; [exact Hrun|]. split; [exact Hfile|].
  intros c Hc. apply columns_saved, columns_analyzed. by left.
Qed.

End Driver.

Section FailureClaims.

Variable fromtimestamp_date : Z → Z.
Variables start_date end_date batch_size : Z.

Local Abbreviation collect :=
  (λ src, get_reddit_posts_for_date fromtimestamp_date src
            start_date end_date batch_size).
Local Abbreviation date := (post_date fromtimestamp_date).
Local Abbreviation taken := (collected fromtimestamp_date start_date end_date).

(** C9: when the feed fails during the collection (no post older than
    [start_date] having stopped the loop first), the collector raises the
    failure after having pulled each item once, and so does [main].  Of the
    [n] in-window posts collected, the last flush covered [k], the largest
    multiple of the batch size within [n]: at most [batch_size - 1] posts
    are lost.  The file is untouched when no flush took place, and otherwise
    holds a table that, up to deduplication, is the initial store merged
    with the first [k] posts; every one of these has its identity in the
    file.  A flush is what the loop does on the in-window post that brings
    the count to a multiple of the batch size: it saves all the posts
    collected so far. *)
Theorem collect_failure_keeps_flushed (src : feed) (w : world) :
  0 < batch_size → file w ≠ Some Malformed →
  at_end src = Fails → Forall (λ s, start_date ≤ date s) (items src) →
  let posts := taken (items src) in
  let n := List.length posts in
  let k := flushed batch_size n in
  (∃ f', collect src w
         = Raise SourceError
             (mkWorld (heap w) (next w) f' (fetched w + List.length (items src)))
         ∧ (k ≤ n)%nat ∧ Z.of_nat (n - k) ≤ batch_size - 1
         ∧ Z.of_nat k mod batch_size = 0
         ∧ (k = 0%nat → f' = file w)
         ∧ (k ≠ 0%nat →
            ∃ df, f' = Some (Csv df)
                  ∧ keep_last (rows df)
                    = keep_last (stored_rows (file w)
                                 ++ (row_of_post <$> take k posts))
                  ∧ ∀ p, p ∈ take k posts →
                         key (row_of_post p) ∈ key <$> rows df))
  ∧ (∀ (score : string → Q) (today : Z),
       start_date = today - 50 → end_date = today → batch_size = 100 →
       ∃ w', main fromtimestamp_date score today src w = Raise SourceError w'
             ∧ flushed_file batch_size (file w) (file w') posts)
  ∧ (∀ (s : Submission) (rest : list Submission) (e : ending)
       (pd : list post) (w0 : world),
       file w0 ≠ Some Malformed →
       in_window start_date end_date (date s) →
       Z.of_nat (List.length (pd ++ [post_of fromtimestamp_date s]))
         mod batch_size = 0 →
       collect_loop fromtimestamp_date start_date end_date batch_size e
         (s :: rest) pd w0
       = collect_loop fromtimestamp_date start_date end_date batch_size e rest
           (pd ++ [post_of fromtimestamp_date s])
           (mkWorld (heap w0) (next w0)
              (Some (Csv (saved (file w0)
                 (DataFrame_of (pd ++ [post_of fromtimestamp_date s])))))
              (S (fetched w0)))).
Proof.
  intros Hb Hf He Hall posts n k.
  destruct (before_stop_all fromtimestamp_date start_date (items src) Hall)
    as [Hbefore Hhalts].
  split_and!.
  - destruct (collect_raises fromtimestamp_date start_date end_date batch_size
                src w Hb Hf Hhalts He) as (f' & Heq & Hinv).
    exists f'. unfold iterated in Heq. rewrite Hbefore, Hhalts in Heq.
    rewrite Nat.add_0_r in Heq.
    destruct (flushed_bounds batch_size n Hb) as (Hle & Hlost & Hmul).
    split_and!; try done.
    + intros Hk. destruct Hinv as [[_ ->]|[Hk' _]]; [done|]. by destruct Hk'.
    + intros Hk. destruct Hinv as [[Hk' _]|(_ & df & -> & Hrows)]; [done|].
      exists df. split_and!; [done|done|].
      intros p Hp. rewrite <- keep_last_keys, Hrows, keep_last_keys.
      rewrite fmap_app, elem_of_app. right.
      by apply list_elem_of_fmap_2, list_elem_of_fmap_2.
  - intros score today Hs Ht Hbs. subst start_date end_date batch_size.
    by apply main_raises.
  - intros s rest e pd w0 Hf0 Hwin Hm.
    apply collect_loop_flush; [lia|done|done|done].
Qed.

End FailureClaims.

(** C8 (as amended): loading returns the table of the file when the file
    is there and can be read, and an empty frame with the raw columns when
    there is no file; on a file that cannot be read the error of
    [read_csv] is raised, and no store is returned. *)
Theorem load_posts_from_csv_cases (w : world) :
  (∀ df, file w = Some (Csv df) → load_posts_from_csv w = Ret df w)
  ∧ (file w = None →
     load_posts_from_csv w = Ret (mkDataFrame raw_columns []) w)
  ∧ (file w = Some Malformed →
     load_posts_from_csv w = Raise ParserError w).
Proof.
  unfold load_posts_from_csv, mbind, M_bind, read_file.
  split_and!; [intros df Hf|intros Hf|intros Hf]; by rewrite Hf.
Qed.

(** * The properties on sample data *)

Import Sample.


Lemma merge_empty_incoming_sample :
  NoDup (key <$> rows store2) ∧ rows no_posts = []
  ∧ file w_store2 = Some (Csv store2)
  ∧ merge store2 no_posts = store2
  ∧ ∃ store',
      (loaded ← load_posts_from_csv;
       save_posts_to_csv (merge loaded no_posts)) w_store2
      = Ret tt (with_file w_store2 (Some (Csv store')))
      ∧ rows store' = rows store2.
Proof.
  assert (NoDup (key <$> rows store2)) as H1.
  { apply (bool_decide_eq_true_1 _). vm_compute. reflexivity. }
  assert (rows no_posts = []) as H2 by reflexivity.
  destruct (merge_empty_incoming store2 no_posts w_store2 H1 H2)
    as (_ & Hid & Hfile).
  destruct (Hfile eq_refl) as (_ & store' & Hrun & Hrows & _).
  split_and!.
  - exact H1.
  - exact H2.
  - reflexivity.
  - apply Hid. intros c Hc. exact Hc.
  - exists store'. split; assumption.
Defined.

Lemma collect_stops_at_first_older_sample :
  0 < 100 ∧ file w0 ≠ Some Malformed
  ∧ items feed4
    = [sub "p10" "" 10; sub "p9" "" 9; sub "p8" "" 8] ++ sub "p7" "" 7 :: []
  ∧ Forall (λ x, 8 ≤ post_date utc_day x)
      [sub "p10" "" 10; sub "p9" "" 9; sub "p8" "" 8]
  ∧ post_date utc_day (sub "p7" "" 7) < 8
  ∧ ∃ f', get_reddit_posts_for_date utc_day feed4 8 9 100 w0
          = Ret (DataFrame_of [("p9", "", 9); ("p8", "", 8)])
              (mkWorld ∅ 0%nat f' 4%nat).
Proof.
  assert (0 < 100) as H1 by lia.
  assert (file w0 ≠ Some Malformed) as H2 by discriminate.
  assert (Forall (λ x, 8 ≤ post_date utc_day x)
            [sub "p10" "" 10; sub "p9" "" 9; sub "p8" "" 8]) as H3.
  { repeat constructor; vm_compute; discriminate. }
  assert (post_date utc_day (sub "p7" "" 7) < 8) as H4 by reflexivity.
  destruct (collect_stops_at_first_older utc_day 8 9 100 feed4
              [sub "p10" "" 10; sub "p9" "" 9; sub "p8" "" 8] []
              (sub "p7" "" 7) w0 H1 H2 eq_refl H3 H4) as [[f' Hrun] _].
  split_and!; try assumption; [reflexivity|].
  exists f'. exact Hrun.
Defined.

(** C3 as stated fails on the sample feed: the collector cannot return
    the posts dated 9 and 8 without having pulled the fourth post, the one
    dated 7. *)
Lemma collect_pulls_the_stopping_post :
  ¬ ∃ df w',
      get_reddit_posts_for_date utc_day feed4 8 9 100 w0 = Ret df w'
      ∧ Date <$> rows df = [9; 8]
      ∧ (fetched w' < 4)%nat.
Proof.
  intros (df & w' & Hrun & _ & Hlt).
  vm_compute in Hrun. injection Hrun as <- <-. simpl in Hlt. lia.
Qed.

Lemma collect_window_filter_sample :
  ∃ w', get_reddit_posts_for_date utc_day feed4 9 9 100 w0
        = Ret (DataFrame_of [("p9", "", 9)]) w'
        ∧ Forall (λ r, Date r = 9) (rows (DataFrame_of [("p9", "", 9)])).
Proof.
  destruct (collect_window_filter utc_day 9 9 100 feed4 w0)
    as (Hwin & Hret & _).
  destruct Hret as [w' Hrun]; [lia|discriminate|left; reflexivity|].
  exists w'. split; [exact Hrun|].
  apply (Hwin _ w' Hrun). reflexivity.
Defined.

Lemma collect_failure_keeps_flushed_sample :
  0 < 2 ∧ file w0 ≠ Some Malformed ∧ at_end feed_fail = Fails
  ∧ Forall (λ s, 8 ≤ post_date utc_day s) (items feed_fail)
  ∧ ∃ df, get_reddit_posts_for_date utc_day feed_fail 8 9 2 w0
          = Raise SourceError (mkWorld ∅ 0%nat (Some (Csv df)) 5%nat)
          ∧ ∀ p, p ∈ [("f1", "", 9); ("f2", "", 9); ("f3", "", 8); ("f4", "", 8)] →
                 key (row_of_post p) ∈ key <$> rows df.
Proof.
  assert (0 < 2) as H1 by lia.
  assert (file w0 ≠ Some Malformed) as H2 by discriminate.
  assert (Forall (λ s, 8 ≤ post_date utc_day s) (items feed_fail)) as H3.
  { repeat constructor; vm_compute; discriminate. }
  destruct (collect_failure_keeps_flushed utc_day 8 9 2 feed_fail w0
              H1 H2 eq_refl H3) as [(f' & Hrun & _ & _ & _ & _ & Hk) _].
  destruct Hk as (df & -> & _ & Hkeys); [vm_compute; lia|].
  split_and!; try assumption; [reflexivity|].
  exists df. split; [exact Hrun|exact Hkeys].
Defined.

Lemma analyze_daily_sentiment_mutates_sample :
  heap w_two !! 0%nat = Some two_posts
  ∧ ∃ daily w' df',
      analyze_daily_sentiment score 0 w_two = Ret daily w'
      ∧ heap w' !! 0%nat = Some df'
      ∧ columns df' = raw_columns ++ derived_columns
      ∧ df' ≠ two_posts.
Proof.
  assert (heap w_two !! 0%nat = Some two_posts) as H by reflexivity.
  destruct (analyze_daily_sentiment_mutates score 0 two_posts w_two H)
    as (daily & w' & df' & Hrun & Hdf' & _ & _ & _ & Hcols & _).
  destruct (Hcols eq_refl) as [Hc Hne].
  split; [exact H|]. exists daily, w', df'. split_and!; assumption.
Defined.

Lemma main_series_of_aggregated_frame_sample :
  file w_stored ≠ Some Malformed
  ∧ stops utc_day (100 - 50) (items feed_old) = true
  ∧ (∃ w', main utc_day score 100 feed_old w_stored = Ret [] w')
  ∧ groupby_Date_mean
      (analyzed score (merge (loaded (file w_stored)) (DataFrame_of [])))
    ≠ [].
Proof.
  assert (file w_stored ≠ Some Malformed) as H1 by discriminate.
  assert (stops utc_day (100 - 50) (items feed_old) = true) as H2
    by reflexivity.
  destruct (main_series_of_aggregated_frame utc_day score 100 feed_old
              w_stored H1 (or_introl H2)) as (daily & w' & Hrun & _ & Hnone).
  rewrite (Hnone eq_refl) in Hrun.
  split_and!; [exact H1|exact H2|by exists w'|].
  vm_compute. discriminate.
Defined.

Lemma main_saves_derived_columns_sample :
  file w0 ≠ Some Malformed ∧ at_end feed_one = Exhausted
  ∧ ∃ daily w' df,
      main utc_day score 100 feed_one w0 = Ret daily w'
      ∧ file w' = Some (Csv df)
      ∧ "Sentiment_Title" ∈ columns df
      ∧ "Sentiment_Text" ∈ columns df
      ∧ "Overall_Sentiment" ∈ columns df.
Proof.
  assert (file w0 ≠ Some Malformed) as H1 by discriminate.
  destruct (main_saves_derived_columns utc_day score 100 feed_one w0 H1
              (or_intror eq_refl)) as (daily & w' & df & Hrun & Hfile & Hcols).
  split_and!; [exact H1|reflexivity|].
  exists daily, w', df. split_and!; try assumption.
  - apply Hcols. unfold derived_columns. left.
  - apply Hcols. unfold derived_columns. right. left.
  - apply Hcols. unfold derived_columns. right. right. left.
Defined.

(** The file after the collector alone, on the same first run: the raw
    columns only. *)
Example collect_first_run_file :
  file (final_world (get_reddit_posts_for_date utc_day feed_one 50 100 100 w0))
  = Some (Csv (DataFrame_of [("a", "b", 100)])).
Proof. vm_compute. reflexivity. Qed.

(** The file after a first run that collects one post. *)
Example main_first_run_file :
  file (final_world (main utc_day score 100 feed_one w0))
  = Some (Csv (mkDataFrame (raw_columns ++ derived_columns)
                 [scored score (row_of_post ("a", "b", 100))])).
Proof. vm_compute. reflexivity. Qed.

Lemma load_posts_from_csv_cases_sample :
  load_posts_from_csv w_store2 = Ret store2 w_store2
  ∧ load_posts_from_csv w0 = Ret (mkDataFrame raw_columns []) w0
  ∧ load_posts_from_csv w_bad = Raise ParserError w_bad.
Proof.
  split_and!.
  - apply (proj1 (load_posts_from_csv_cases w_store2)). reflexivity.
  - apply (proj1 (proj2 (load_posts_from_csv_cases w0))). reflexivity.
  - apply (proj2 (proj2 (load_posts_from_csv_cases w_bad))). reflexivity.
Defined.

(** C8 as stated fails on a file that cannot be read: loading returns no
    store at all, empty or not. *)
Lemma load_malformed_returns_no_store :
  ¬ ∃ df w', load_posts_from_csv w_bad = Ret df w'.
Proof. intros (df & w' & Hload). vm_compute in Hload. discriminate. Qed.

(** The stored post ("c", "d") and the collected post ("a", "b"), both of
    day 100: two entries for day 100, with the values 1 and -1. *)
Lemma daily_series_splits_mixed_day_sample :
  ((row_of_post ("a", "b", 100), false) ∈ Sample3.stored_then_collected
   ∧ (row_of_post ("c", "d", 100), true) ∈ Sample3.stored_then_collected)
  ∧ ((date_obj 100,
      Some (arith_mean
              (overallSentiment Sample.score
                 <$> (cell_dated (date_obj 100)
                        Sample3.stored_then_collected).*1)))
       ∈ (analyze_daily_sentiment_cells Sample.score
            Sample3.stored_then_collected).2
     ∧ (date_text 100,
        Some (arith_mean
                (overallSentiment Sample.score
                   <$> (cell_dated (date_text 100)
                          Sample3.stored_then_collected).*1)))
         ∈ (analyze_daily_sentiment_cells Sample.score
              Sample3.stored_then_collected).2
     ∧ ¬ NoDup (day_of <$> (analyze_daily_sentiment_cells Sample.score
                              Sample3.stored_then_collected).2.*1))
  ∧ ∃ v1 v2 : Q,
      (analyze_daily_sentiment_cells Sample.score
         Sample3.stored_then_collected).2
      = [(date_obj 100, Some v1); (date_text 100, Some v2)]
      ∧ (v1 == 1)%Q ∧ (v2 == -1)%Q.
Proof.
  assert ((row_of_post ("a", "b", 100), false)
            ∈ Sample3.stored_then_collected) as H1.
  { apply elem_of_cons. right. apply elem_of_cons. by left. }
  assert ((row_of_post ("c", "d", 100), true)
            ∈ Sample3.stored_then_collected) as H2.
  { apply elem_of_cons. by left. }
  split; [by split|]. split.
  - exact (daily_series_splits_mixed_day Sample.score
             Sample3.stored_then_collected 100 _ _ H1 H2 eq_refl eq_refl).
  - eexists _, _. split; [reflexivity|]. split; reflexivity.
Defined.

(** * Further properties of the store *)

Lemma keep_last_absorb (l c : list Row) :
  keep_last (keep_last l ++ c) = keep_last (l ++ c).
Proof. by rewrite !keep_last_app, keep_last_idemp. Qed.

Lemma length_keep_last (l : list Row) :
  (List.length (keep_last l) ≤ List.length l)%nat.
Proof.
  induction l as [|a l IH]; simpl; [done|]. case_decide; simpl; lia.
Qed.

Lemma elem_of_concat_columns (c1 c2 : list string) (c : string) :
  c ∈ concat_columns c1 c2 ↔ c ∈ c1 ∨ c ∈ c2.
Proof.
  unfold concat_columns. rewrite elem_of_app, list_elem_of_filter.
  destruct (decide (c ∈ c1)); tauto.
Qed.

Lemma concat_columns_assoc (c1 c2 c3 : list string) :
  concat_columns (concat_columns c1 c2) c3
  = concat_columns c1 (concat_columns c2 c3).
Proof.
  unfold concat_columns. rewrite <- app_assoc, filter_app. do 2 f_equal.
  rewrite list_filter_filter. apply list_filter_iff. intros c.
  rewrite elem_of_app, list_elem_of_filter. tauto.
Qed.

(** X1: the identities of a merge are those of its two arguments: none is
    lost and none appears; no identity occurs twice; a row whose identity
    comes with the incoming frame is a row of the incoming frame; and the
    merge has at most as many rows as its arguments together. *)
Theorem merge_identities (existing incoming : DataFrame) :
  (∀ k, k ∈ key <$> rows (merge existing incoming)
        ↔ k ∈ key <$> rows existing ∨ k ∈ key <$> rows incoming)
  ∧ NoDup (key <$> rows (merge existing incoming))
  ∧ (∀ r, r ∈ rows (merge existing incoming) →
          key r ∈ key <$> rows incoming → r ∈ rows incoming)
  ∧ (∀ r, r ∈ rows (merge existing incoming) →
          key r ∉ key <$> rows incoming → r ∈ rows existing)
  ∧ (List.length (rows (merge existing incoming))
     ≤ List.length (rows existing) + List.length (rows incoming))%nat.
Proof.
  unfold merge, drop_duplicates, concat. simpl. split_and!.
  - intros k. by rewrite keep_last_keys, fmap_app, elem_of_app.
  - apply keep_last_NoDup.
  - intros r. rewrite keep_last_app, elem_of_app, list_elem_of_filter.
    intros [[Hk _]|Hr] Hin; [done|]. by apply keep_last_elem.
  - intros r. rewrite keep_last_app, elem_of_app, list_elem_of_filter.
    intros [[_ Hr]|Hr] Hin; [by apply keep_last_elem|].
    destruct Hin. by apply list_elem_of_fmap_2, keep_last_elem.
  - rewrite <- length_app. apply length_keep_last.
Qed.

(** X2: merging in two steps gives the frame that merging once with both
    batches gives. *)
Theorem merge_in_batches (existing first second : DataFrame) :
  merge (merge existing first) second
  = merge existing (concat first second).
Proof.
  unfold merge, drop_duplicates, concat. simpl. f_equal.
  - apply concat_columns_assoc.
  - by rewrite keep_last_absorb, app_assoc.
Qed.

(** * Further properties of the collector *)

Section CollectorMore.

Variable fromtimestamp_date : Z → Z.
Variables start_date end_date : Z.

Local Abbreviation date := (post_date fromtimestamp_date).
Local Abbreviation taken := (collected fromtimestamp_date start_date end_date).
Local Abbreviation pulled := (iterated fromtimestamp_date start_date).
Local Abbreviation halts := (stops fromtimestamp_date start_date).

(** X4: on normal termination the collector returns the in-window posts found
    ahead of the stop and has pulled these posts, the skipped ones and the
    stopping one.  When it collected nothing it leaves the file as it was
    (it does not create it).  Otherwise the file holds a table whose
    identities are those of the previous store and of the collected posts,
    and which holds the latest collected copy of every collected identity. *)
Theorem collect_saves_on_normal_end (batch_size : Z) (src : feed) (w : world) :
  0 < batch_size → file w ≠ Some Malformed →
  halts (items src) = true ∨ at_end src = Exhausted →
  ∃ f', get_reddit_posts_for_date fromtimestamp_date src
          start_date end_date batch_size w
        = Ret (DataFrame_of (taken (items src)))
            (mkWorld (heap w) (next w) f' (fetched w + pulled (items src)))
        ∧ (taken (items src) = [] → f' = file w)
        ∧ (taken (items src) ≠ [] →
           ∃ df, f' = Some (Csv df)
                 ∧ (∀ k, k ∈ key <$> rows df
                         ↔ k ∈ key <$> stored_rows (file w)
                           ∨ k ∈ key <$> (row_of_post <$> taken (items src)))
                 ∧ (∀ r, r ∈ keep_last (row_of_post <$> taken (items src)) →
                         r ∈ rows df)).
Proof.
  intros Hb Hf Hend.
  destruct (collect_returns fromtimestamp_date start_date end_date
              batch_size src w Hb Hf Hend) as (f' & Hrun & Hnone & Hsome).
  exists f'. split_and!; [done|done|].
  intros (df & -> & Hrows)%Hsome. exists df. split_and!; [done| |].
  - intros k. by rewrite <- keep_last_keys, Hrows, keep_last_keys,
      fmap_app, elem_of_app.
  - intros r Hr. apply keep_last_elem. rewrite Hrows, keep_last_app.
    apply elem_of_app. by right.
Qed.

Lemma flushed_small (batch_size : Z) (n : nat) :
  Z.of_nat n < batch_size → flushed batch_size n = 0%nat.
Proof.
  intros Hn. unfold flushed. rewrite Z.mod_small by lia. lia.
Qed.

(** X5: when fewer posts than the batch size are collected, the collector
    saves once, at the end.  With no file yet, that save writes the
    collected posts as they are: rows are not deduplicated, so the first
    file holds every collected copy of an identity. *)
Theorem collect_small_run_saves_once (batch_size : Z) (src : feed) (w : world) :
  file w ≠ Some Malformed →
  halts (items src) = true ∨ at_end src = Exhausted →
  taken (items src) ≠ [] →
  Z.of_nat (List.length (taken (items src))) < batch_size →
  get_reddit_posts_for_date fromtimestamp_date src
    start_date end_date batch_size w
  = Ret (DataFrame_of (taken (items src)))
      (mkWorld (heap w) (next w)
         (Some (Csv (saved (file w) (DataFrame_of (taken (items src))))))
         (fetched w + pulled (items src)))
  ∧ (file w = None →
     saved (file w) (DataFrame_of (taken (items src)))
     = DataFrame_of (taken (items src))).
Proof.
  intros Hf Hend Hsome Hsmall.
  assert (0 < batch_size) as Hb by lia.
  split; [|by intros ->].
  unfold get_reddit_posts_for_date.
  destruct (collect_loop_spec fromtimestamp_date start_date end_date
              batch_size (at_end src) (items src) Hb [] w (file w) Hf
              (flushed_file_init _ _)) as (f' & Hinv & Heq).
  rewrite app_nil_l in *.
  unfold mbind at 1, M_bind at 1. rewrite Heq.
  assert (f' = file w) as ->.
  { destruct Hinv as [[_ ->]|[Hk _]]; [done|].
    by rewrite flushed_small in Hk. }
  assert (loop_end fromtimestamp_date start_date (at_end src) (items src)
            (taken (items src))
            (mkWorld (heap w) (next w) (file w) (fetched w + pulled (items src)))
          = Ret (taken (items src))
              (mkWorld (heap w) (next w) (file w) (fetched w + pulled (items src))))
    as ->.
  { unfold loop_end. destruct Hend as [->| ->]; [done|]. by destruct (halts _). }
  destruct (taken (items src)) as [|p pd] eqn:Htaken; [done|].
  unfold mbind at 1, M_bind at 1.
  by rewrite save_posts_to_csv_ok.
Qed.

End CollectorMore.

Section CollectorEdge.

Variable fromtimestamp_date : Z → Z.
Variables start_date end_date batch_size : Z.

Local Abbreviation date := (post_date fromtimestamp_date).
Local Abbreviation taken := (collected fromtimestamp_date start_date end_date).
Local Abbreviation pulled := (iterated fromtimestamp_date start_date).
Local Abbreviation halts := (stops fromtimestamp_date start_date).
Local Abbreviation loop :=
  (collect_loop fromtimestamp_date start_date end_date batch_size).
Local Abbreviation collect :=
  (λ src, get_reddit_posts_for_date fromtimestamp_date src
            start_date end_date batch_size).

(** The loop over posts that are skipped: neither older than
    [start_date] nor in the window. *)
Lemma collect_loop_skips (e : ending) (pre rest : list Submission)
    (pd : list post) (w : world) :
  Forall (λ x, start_date ≤ date x
               ∧ ¬ in_window start_date end_date (date x)) pre →
  loop e (pre ++ rest) pd w
  = loop e rest pd
      (mkWorld (heap w) (next w) (file w) (fetched w + List.length pre)).
Proof.
  intros Hpre. revert w.
  induction Hpre as [|x pre [Hx Hout] Hpre IH]; intros w.
  - simpl. rewrite Nat.add_0_r. by destruct w.
  - simpl. unfold mbind at 1, M_bind at 1, fetch_one at 1.
    fold (post_date fromtimestamp_date x).
    rewrite (proj2 (Z.ltb_ge (date x) start_date)) by lia.
    destruct ((start_date <=? date x) && (date x <=? end_date)) eqn:Hwin.
    + apply andb_true_iff in Hwin as [H1%Z.leb_le H2%Z.leb_le].
      destruct Hout. by split.
    + rewrite IH. cbn [heap next file fetched].
      by rewrite Nat.add_succ_comm.
Qed.

(** When no post ahead of the stop is in the window, the loop ends as the
    feed has it, whatever the batch size and the file are. *)
Lemma collect_loop_nothing (e : ending) (src : list Submission)
    (pd : list post) (w : world) :
  taken src = [] →
  loop e src pd w
  = loop_end fromtimestamp_date start_date e src pd
      (mkWorld (heap w) (next w) (file w) (fetched w + pulled src)).
Proof.
  revert w. induction src as [|s rest IH]; intros w Hnone.
  - unfold loop_end, stops, iterated.
    rewrite bool_decide_false by (by intros ?%Exists_nil).
    simpl. rewrite Nat.add_0_r. by destruct w, e.
  - simpl. unfold mbind at 1, M_bind at 1, fetch_one at 1.
    fold (post_date fromtimestamp_date s).
    destruct (Z.ltb_spec (date s) start_date) as [Hold|Hnew].
    + destruct (window_cons_old fromtimestamp_date start_date end_date
                  s rest Hold) as (_ & Hp & Hh).
      unfold loop_end. rewrite Hh, Hp. unfold mret, M_ret.
      by rewrite Nat.add_1_r.
    + apply Z.le_ngt in Hnew as Hnold.
      destruct (decide (in_window start_date end_date (date s))) as [Hin|Hout].
      * destruct (window_cons_in fromtimestamp_date start_date end_date
                    s rest Hnold Hin) as (Ht & _). by rewrite Ht in Hnone.
      * destruct (window_cons_out fromtimestamp_date start_date end_date
                    s rest Hnold Hout) as (Ht & Hp & Hh).
        rewrite Ht in Hnone.
        replace ((start_date <=? date s) && (date s <=? end_date)) with false.
        -- rewrite IH by done. unfold loop_end. rewrite Hh, Hp.
           cbn [heap next file fetched]. by rewrite Nat.add_succ_comm.
        -- symmetry. apply not_true_iff_false. intros Hw. apply Hout.
           apply andb_true_iff in Hw as [H1%Z.leb_le H2%Z.leb_le]. by split.
Qed.

(** X6: a collection that finds no post in the window, for every batch size
    (zero included) and every file (an unreadable one included): the
    collector returns the empty frame when the loop ends normally and raises
    the failure of the feed otherwise; it has pulled the skipped posts and
    the stopping one, and it has not touched the file. *)
Theorem collect_nothing_in_window (src : feed) (w : world) :
  taken (items src) = [] →
  collect src w
  = (if halts (items src) then Ret (DataFrame_of [])
     else match at_end src with
          | Exhausted => Ret (DataFrame_of [])
          | Fails => Raise SourceError
          end)
      (mkWorld (heap w) (next w) (file w) (fetched w + pulled (items src))).
Proof.
  intros Hnone. unfold get_reddit_posts_for_date.
  unfold mbind at 1, M_bind at 1.
  rewrite collect_loop_nothing by done. unfold loop_end.
  destruct (halts (items src)); [done|]. by destruct (at_end src).
Qed.

(** X7: with batch size zero, the first post in the window makes the
    collector raise [ZeroDivisionError]: the posts ahead of it have been
    pulled and skipped, nothing is saved and nothing is returned. *)
Theorem collect_zero_batch_size (src : feed) (pre rest : list Submission)
    (s : Submission) (w : world) :
  batch_size = 0 →
  items src = pre ++ s :: rest →
  Forall (λ x, start_date ≤ date x
               ∧ ¬ in_window start_date end_date (date x)) pre →
  in_window start_date end_date (date s) →
  collect src w
  = Raise ZeroDivisionError
      (mkWorld (heap w) (next w) (file w) (fetched w + S (List.length pre))).
Proof.
  intros Hb Hitems Hpre [H1 H2]. unfold get_reddit_posts_for_date.
  unfold mbind at 1, M_bind at 1.
  rewrite Hitems, collect_loop_skips by done. simpl.
  unfold mbind at 1, M_bind at 1, fetch_one at 1.
  fold (post_date fromtimestamp_date s).
  rewrite (proj2 (Z.ltb_ge (date s) start_date)) by lia.
  rewrite (proj2 (Z.leb_le start_date (date s))) by lia.
  rewrite (proj2 (Z.leb_le (date s) end_date)) by lia. simpl.
  unfold mbind at 1, M_bind at 1, py_mod. rewrite Hb. simpl.
  unfold raise. cbn [heap next file fetched]. by rewrite Nat.add_succ_r.
Qed.

(** The loop over an unreadable file: it raises [ParserError] at its
    first flush, or ends without having flushed. *)
Lemma collect_loop_malformed (e : ending) (src : list Submission) :
  batch_size ≠ 0 →
  ∀ (pd : list post) (w : world),
    file w = Some Malformed →
    (∃ w', loop e src pd w = Raise ParserError w'
           ∧ file w' = Some Malformed ∧ heap w' = heap w)
    ∨ loop e src pd w
      = loop_end fromtimestamp_date start_date e src (pd ++ taken src)
          (mkWorld (heap w) (next w) (Some Malformed) (fetched w + pulled src)).
Proof.
  intros Hb. induction src as [|s rest IH]; intros pd w Hf.
  - right. unfold collected, loop_end, stops, iterated.
    rewrite bool_decide_false by (by intros ?%Exists_nil).
    simpl. rewrite app_nil_r, Nat.add_0_r, <- Hf. by destruct w, e.
  - simpl. unfold mbind, M_bind, fetch_one, py_mod, mret, M_ret.
    fold (post_date fromtimestamp_date s).
    rewrite (proj2 (Z.eqb_neq batch_size 0)) by done.
    destruct (Z.ltb_spec (date s) start_date) as [Hold|Hnew].
    + right.
      destruct (window_cons_old fromtimestamp_date start_date end_date
                  s rest Hold) as (-> & Hp & Hh).
      unfold loop_end. rewrite Hh, Hp, app_nil_r.
      by rewrite Nat.add_1_r, Hf.
    + apply Z.le_ngt in Hnew as Hnold.
      destruct ((start_date <=? date s) && (date s <=? end_date)) eqn:Hwin.
      * apply andb_true_iff in Hwin as [H1%Z.leb_le H2%Z.leb_le].
        destruct (window_cons_in fromtimestamp_date start_date end_date
                    s rest Hnold (conj H1 H2)) as (-> & Hp & Hh).
        fold (post_of fromtimestamp_date s).
        match goal with
        | |- context [?m =? 0] => destruct (m =? 0)
        end.
        -- left. rewrite save_posts_to_csv_malformed by done. eauto.
        -- destruct (IH (pd ++ [post_of fromtimestamp_date s])
                       (mkWorld (heap w) (next w) (file w) (S (fetched w))) Hf)
             as [(w' & Hr & Hf' & Hh')|Heq].
           ++ left. exists w'. split; [exact Hr|]. by split.
           ++ right. etrans; [exact Heq|]. unfold loop_end.
              rewrite Hh, Hp. cbn [heap next file fetched].
              by rewrite <- app_assoc, Nat.add_succ_r.
      * assert (¬ in_window start_date end_date (date s)) as Hout.
        { intros [H1%Z.leb_le H2%Z.leb_le]. by rewrite H1, H2 in Hwin. }
        destruct (window_cons_out fromtimestamp_date start_date end_date
                    s rest Hnold Hout) as (-> & Hp & Hh).
        destruct (IH pd (mkWorld (heap w) (next w) (file w) (S (fetched w))) Hf)
          as [(w' & Hr & Hf' & Hh')|Heq].
        -- left. exists w'. split; [exact Hr|]. by split.
        -- right. etrans; [exact Heq|]. unfold loop_end.
           rewrite Hh, Hp. cbn [heap next file fetched].
           by rewrite Nat.add_succ_r.
Qed.

(** X8: over a file that cannot be read, a collection that ends normally and
    finds at least one post in the window raises [ParserError] (at the first
    flush or at the final save); the file is left as it was and no object of
    the store is changed.  The driver does not get that far: it raises
    [ParserError] when it loads the store, before anything is pulled from
    the feed. *)
Theorem collect_over_unreadable_file (src : feed) (w : world) :
  batch_size ≠ 0 → file w = Some Malformed →
  halts (items src) = true ∨ at_end src = Exhausted →
  taken (items src) ≠ [] →
  (∃ w', collect src w = Raise ParserError w'
         ∧ file w' = Some Malformed ∧ heap w' = heap w)
  ∧ (∀ (score : string → Q) (today : Z) (any : feed),
       main fromtimestamp_date score today any w = Raise ParserError w).
Proof.
  intros Hb Hf Hend Hsome. split.
  - unfold get_reddit_posts_for_date. unfold mbind at 1, M_bind at 1.
    destruct (collect_loop_malformed (at_end src) (items src) Hb [] w Hf)
      as [(w' & -> & Hf' & Hh') | ->].
    + by exists w'.
    + rewrite app_nil_l.
      assert (loop_end fromtimestamp_date start_date (at_end src) (items src)
                (taken (items src))
                (mkWorld (heap w) (next w) (Some Malformed)
                   (fetched w + pulled (items src)))
              = Ret (taken (items src))
                  (mkWorld (heap w) (next w) (Some Malformed)
                     (fetched w + pulled (items src)))) as ->.
      { unfold loop_end. destruct Hend as [->| ->]; [done|].
        by destruct (halts _). }
      destruct (taken (items src)) as [|p pd]; [done|].
      unfold mbind at 1, M_bind at 1.
      rewrite save_posts_to_csv_malformed by done. eauto.
  - intros score today any. unfold main.
    unfold mbind at 1, M_bind at 1. unfold mbind at 1, M_bind at 1.
    unfold load_posts_from_csv, mbind, M_bind, read_file. by rewrite Hf.
Qed.

Lemma mod_opp_eqb (a b : Z) : (a mod (- b) =? 0) = (a mod b =? 0).
Proof.
  destruct (Z.eqb_spec (a mod b) 0) as [H0|Hn].
  - apply Z.eqb_eq. by apply Z_mod_zero_opp_r.
  - apply Z.eqb_neq. intros H0. apply Hn.
    rewrite <- (Z.opp_involutive b). by apply Z_mod_zero_opp_r.
Qed.

End CollectorEdge.

Lemma collect_loop_opp (fromtimestamp_date : Z → Z)
    (start_date end_date batch_size : Z) (e : ending)
    (src : list Submission) :
  ∀ (pd : list post) (w : world),
    collect_loop fromtimestamp_date start_date end_date (- batch_size) e src pd w
    = collect_loop fromtimestamp_date start_date end_date batch_size e src pd w.
Proof.
  induction src as [|s rest IH]; intros pd w; [done|].
  simpl. unfold mbind, M_bind, fetch_one, py_mod, mret, M_ret.
  destruct (_ <? start_date); [done|].
  destruct (_ && _); [|apply IH].
  replace (- batch_size =? 0) with (batch_size =? 0)
    by (destruct (Z.eqb_spec batch_size 0), (Z.eqb_spec (- batch_size) 0); lia).
  destruct (batch_size =? 0); [done|].
  rewrite mod_opp_eqb.
  match goal with
  | |- context [?m =? 0] => destruct (m =? 0)
  end.
  - destruct (save_posts_to_csv _ _); [apply IH|done].
  - apply IH.
Qed.

(** X9: a negative batch size behaves as its absolute value: Python's [%]
    gives zero for the same counts, so the flushes happen at the same
    posts and the collector ends in the same way. *)
Theorem collect_negative_batch_size (fromtimestamp_date : Z → Z)
    (start_date end_date batch_size : Z) (src : feed) (w : world) :
  get_reddit_posts_for_date fromtimestamp_date src
    start_date end_date (- batch_size) w
  = get_reddit_posts_for_date fromtimestamp_date src
      start_date end_date batch_size w.
Proof.
  unfold get_reddit_posts_for_date, mbind, M_bind.
  by rewrite collect_loop_opp.
Qed.

(** * Further properties of the aggregation *)

Lemma Qsum_acc_bounds (lo hi : Q) (xs : list Q) :
  Forall (λ x, lo <= x ∧ x <= hi)%Q xs →
  ∀ acc : Q,
    (acc + inject_Z (Z.of_nat (List.length xs)) * lo <= fold_left Qplus xs acc
     ∧ fold_left Qplus xs acc
       <= acc + inject_Z (Z.of_nat (List.length xs)) * hi)%Q.
Proof.
  induction 1 as [|x xs [Hlo Hhi] Hxs IH]; intros acc.
  - cbn [fold_left List.length].
    change (inject_Z (Z.of_nat 0)) with 0%Q. split; lra.
  - cbn [fold_left List.length]. destruct (IH (acc + x)%Q) as [IH1 IH2].
    rewrite Nat2Z.inj_succ. unfold Z.succ. rewrite inject_Z_plus.
    change (inject_Z 1) with 1%Q.
    split; lra.
Qed.

(** The mean of a non-empty list lies between any two bounds of its
    elements. *)
Lemma arith_mean_bounds (lo hi : Q) (xs : list Q) :
  xs ≠ [] →
  Forall (λ x, lo <= x ∧ x <= hi)%Q xs →
  (lo <= arith_mean xs ∧ arith_mean xs <= hi)%Q.
Proof.
  intros Hne Hxs. unfold arith_mean, Qsum.
  destruct (Qsum_acc_bounds lo hi xs Hxs 0%Q) as [H1 H2].
  assert (0 < inject_Z (Z.of_nat (List.length xs)))%Q as Hpos.
  { change 0%Q with (inject_Z 0). rewrite <- Zlt_Qlt.
    destruct xs; [done|]. simpl. lia. }
  split.
  - apply Qle_shift_div_l; [done|]. lra.
  - apply Qle_shift_div_r; [done|]. lra.
Qed.

Section AggregationMore.

Variable score : string → Q.

(** The series of a frame, in terms of its rows. *)
Lemma groupby_analyzed (df : DataFrame) :
  groupby_Date_mean (analyzed score df)
  = (λ d, (d, Some (arith_mean
                      (overallSentiment score <$> dated d (rows df)))))
      <$> group_keys (Date <$> rows df).
Proof.
  unfold groupby_Date_mean. rewrite rows_analyzed.
  assert (Date <$> (scored score <$> rows df) = Date <$> rows df) as ->.
  { rewrite <- list_fmap_compose. by apply list_fmap_ext. }
  apply list_fmap_ext. intros i d Hd. f_equal.
  rewrite dated_scored. apply nan_mean_scored.
  apply list_elem_of_lookup_2, elem_of_group_keys, list_elem_of_fmap in Hd
    as (r & -> & Hr).
  apply (elem_of_not_nil r). unfold dated. by apply list_elem_of_filter.
Qed.

(** X11: when the scorer takes its values in [-1, 1], so does the overall
    score that the aggregation leaves on every row, and so does every value
    of the daily series. *)
Theorem daily_average_bounds (posts_df : nat) (df : DataFrame) (w : world) :
  (∀ s, -1 <= score s ∧ score s <= 1)%Q →
  heap w !! posts_df = Some df →
  ∃ daily w' df',
    analyze_daily_sentiment score posts_df w = Ret daily w'
    ∧ heap w' !! posts_df = Some df'
    ∧ (∀ r, r ∈ rows df' →
         ∃ o, Overall_Sentiment r = Some o ∧ (-1 <= o ∧ o <= 1)%Q)
    ∧ (∀ d v, (d, v) ∈ daily →
         ∃ m, v = Some m ∧ (-1 <= m ∧ m <= 1)%Q).
Proof.
  intros Hscore Hdf.
  assert (∀ r, -1 <= overallSentiment score r
               ∧ overallSentiment score r <= 1)%Q as Hall.
  { intros r. unfold overallSentiment.
    destruct (Hscore (Title r)), (Hscore (Text r)).
    split; [apply Qle_shift_div_l|apply Qle_shift_div_r]; lra. }
  eexists _, _, _. split; [by apply analyze_daily_sentiment_run|].
  cbn [heap]. split; [by rewrite lookup_insert_eq|]. split.
  - intros r. rewrite rows_analyzed.
    intros (r0 & -> & _)%list_elem_of_fmap. eexists. split; [done|]. apply Hall.
  - intros d v. rewrite groupby_analyzed.
    intros (d' & [= -> ->] & Hd')%list_elem_of_fmap.
    eexists. split; [done|]. apply arith_mean_bounds.
    + apply elem_of_group_keys, list_elem_of_fmap in Hd' as (r & -> & Hr).
      intros Hnil%fmap_nil_inv. revert Hnil. apply (elem_of_not_nil r).
      unfold dated. by apply list_elem_of_filter.
    + apply Forall_fmap, Forall_forall. intros r _. apply Hall.
Qed.

End AggregationMore.

Section AggregationAgain.

Variable score : string → Q.

Lemma add_column_present (c : string) (cols : list string) :
  c ∈ cols → add_column c cols = cols.
Proof. intros Hc. unfold add_column. by rewrite decide_True. Qed.

Lemma scored_raw_fields (r r' : Row) :
  raw_fields r = raw_fields r' → scored score r = scored score r'.
Proof.
  unfold raw_fields, scored, overallSentiment. by intros [= -> -> ->].
Qed.

Lemma scored_fmap_raw_fields (l l' : list Row) :
  raw_fields <$> l = raw_fields <$> l' →
  scored score <$> l = scored score <$> l'.
Proof.
  revert l'. induction l as [|r l IH]; intros [|r' l'] Heq; try done.
  rewrite !fmap_cons in *. injection Heq as Ht Hx Hd Hl.
  f_equal; [|by apply IH].
  apply scored_raw_fields. unfold raw_fields. by rewrite Ht, Hx, Hd.
Qed.

Lemma analyzed_idemp (df : DataFrame) :
  analyzed score (analyzed score df) = analyzed score df.
Proof.
  destruct (analyzed score df) as [cols rs] eqn:Ha.
  assert (∀ c, c ∈ derived_columns → c ∈ cols) as Hcols.
  { intros c Hc. change cols with (columns (mkDataFrame cols rs)).
    rewrite <- Ha. apply columns_analyzed. by left. }
  assert (rs = scored score <$> rows df) as Hrs.
  { change rs with (rows (mkDataFrame cols rs)). rewrite <- Ha.
    apply rows_analyzed. }
  unfold analyzed, set_Overall_Sentiment, set_Sentiment_Text,
    set_Sentiment_Title. cbn [columns rows]. f_equal.
  - rewrite (add_column_present "Sentiment_Title") by
      (apply Hcols; unfold derived_columns; set_solver).
    rewrite (add_column_present "Sentiment_Text") by
      (apply Hcols; unfold derived_columns; set_solver).
    rewrite (add_column_present "Overall_Sentiment") by
      (apply Hcols; unfold derived_columns; set_solver).
    done.
  - rewrite Hrs, <- !list_fmap_compose. by apply list_fmap_ext.
Qed.

(** X12: aggregating the same object a second time returns the same series
    and leaves the object as the first call left it. *)
Theorem analyze_daily_sentiment_twice (posts_df : nat) (df : DataFrame)
    (w : world) :
  heap w !! posts_df = Some df →
  (_ ← analyze_daily_sentiment score posts_df;
   analyze_daily_sentiment score posts_df) w
  = analyze_daily_sentiment score posts_df w.
Proof.
  intros Hdf. unfold mbind at 1, M_bind at 1.
  rewrite (analyze_daily_sentiment_run score posts_df df w Hdf).
  erewrite analyze_daily_sentiment_run by (cbn [heap]; apply lookup_insert_eq).
  cbn [heap next file fetched].
  by rewrite analyzed_idemp, insert_insert_eq.
Qed.

(** X13: the aggregation reads only the title, the text and the date of a
    row: score cells that a frame already carries (those of a file written
    by an earlier run) have no influence on the series nor on the rows the
    call leaves. *)
Theorem analyze_daily_sentiment_ignores_old_scores (r1 r2 : nat)
    (df1 df2 : DataFrame) (w : world) :
  heap w !! r1 = Some df1 → heap w !! r2 = Some df2 →
  raw_fields <$> rows df1 = raw_fields <$> rows df2 →
  ∃ daily w1 w2 df1' df2',
    analyze_daily_sentiment score r1 w = Ret daily w1
    ∧ analyze_daily_sentiment score r2 w = Ret daily w2
    ∧ heap w1 !! r1 = Some df1' ∧ heap w2 !! r2 = Some df2'
    ∧ rows df1' = rows df2'.
Proof.
  intros H1 H2 Hraw.
  assert (rows (analyzed score df1) = rows (analyzed score df2)) as Hrows.
  { rewrite !rows_analyzed. by apply scored_fmap_raw_fields. }
  eexists _, _, _, _, _.
  split; [by apply analyze_daily_sentiment_run|].
  split.
  { rewrite (analyze_daily_sentiment_run score r2 df2 w H2).
    unfold groupby_Date_mean. by rewrite Hrows. }
  cbn [heap]. rewrite !lookup_insert_eq. done.
Qed.

End AggregationAgain.

(** * Further properties of the driver *)

Section DriverMore.

Variable fromtimestamp_date : Z → Z.
Variable score : string → Q.

Local Abbreviation run := (main fromtimestamp_date score).
Local Abbreviation taken :=
  (λ today, collected fromtimestamp_date (today - 50) today).

Lemma keys_scored (l : list Row) : key <$> (scored score <$> l) = key <$> l.
Proof. rewrite <- list_fmap_compose. by apply list_fmap_ext. Qed.

Lemma rows_loaded (f : option file_content) :
  f ≠ Some Malformed → rows (loaded f) = stored_rows f.
Proof. by destruct f as [[df|]|]. Qed.

(** A run in which the collection ends normally, with what the collector
    left in the file before the final save. *)
Lemma main_run_file (today : Z) (src : feed) (w : world) :
  file w ≠ Some Malformed →
  stops fromtimestamp_date (today - 50) (items src) = true
    ∨ at_end src = Exhausted →
  let collected_df := DataFrame_of (taken today (items src)) in
  let posts_df :=
    if negb (empty collected_df) then merge (loaded (file w)) collected_df
    else collected_df in
  ∃ w' f',
    run today src w = Ret (groupby_Date_mean (analyzed score posts_df)) w'
    ∧ file w' = Some (Csv (saved f' (analyzed score posts_df)))
    ∧ (taken today (items src) = [] → f' = file w)
    ∧ (taken today (items src) ≠ [] →
       ∃ df, f' = Some (Csv df)
             ∧ keep_last (rows df)
               = keep_last (stored_rows (file w)
                            ++ (row_of_post <$> taken today (items src)))).
Proof.
  intros Hf Hend collected_df posts_df. unfold main.
  unfold mbind at 1, M_bind at 1. unfold mbind at 1, M_bind at 1.
  rewrite load_posts_from_csv_ok by done. unfold alloc at 1.
  unfold mbind at 1, M_bind at 1. unfold mbind at 1, M_bind at 1.
  destruct (collect_returns fromtimestamp_date (today - 50) today 100 src
              (mkWorld (<[next w := loaded (file w)]> (heap w)) (S (next w))
                 (file w) (fetched w)))
    as (f' & Hcollect & Hnone & Hsome); [lia|done|done|].
  rewrite Hcollect. fold collected_df.
  cbn [heap next file fetched] in Hnone, Hsome.
  assert (f' ≠ Some Malformed) as Hf'.
  { destruct (collected _ _ _ _) as [|p pd] eqn:Hc.
    - by rewrite Hnone.
    - destruct Hsome as (df & -> & _); done. }
  unfold alloc at 1. cbn [heap next file fetched].
  unfold mbind at 1, M_bind at 1, deref at 1. cbn [heap next file fetched].
  rewrite lookup_insert_eq.
  unfold mbind at 1, M_bind at 1.
  unfold posts_df.
  destruct (empty collected_df); cbn [negb]; cbv beta iota.
  - unfold mret at 1, M_ret at 1. unfold mbind at 1, M_bind at 1.
    erewrite analyze_daily_sentiment_run
      by (cbn [heap]; apply lookup_insert_eq).
    cbn [heap next file fetched].
    unfold mbind at 1, M_bind at 1, deref at 1. cbn [heap next file fetched].
    rewrite lookup_insert_eq.
    unfold mbind at 1, M_bind at 1.
    rewrite save_posts_to_csv_ok by done. unfold with_file.
    cbn [heap next file fetched].
    eexists _, f'. split; [done|]. split; [done|]. by split.
  - unfold mbind at 1, M_bind at 1, deref at 1. cbn [heap next file fetched].
    rewrite lookup_insert_ne by lia. rewrite lookup_insert_eq.
    unfold alloc at 1. cbn [heap next file fetched].
    unfold mbind at 1, M_bind at 1.
    erewrite analyze_daily_sentiment_run
      by (cbn [heap]; apply lookup_insert_eq).
    cbn [heap next file fetched].
    unfold mbind at 1, M_bind at 1, deref at 1. cbn [heap next file fetched].
    rewrite lookup_insert_eq.
    unfold mbind at 1, M_bind at 1.
    rewrite save_posts_to_csv_ok by done. unfold with_file.
    cbn [heap next file fetched].
    eexists _, f'. split; [done|]. split; [done|]. by split.
Qed.

(** The rows in the file after a run in which the collection ends
    normally. *)
Lemma main_file_rows (today : Z) (src : feed) (w : world) :
  file w ≠ Some Malformed →
  stops fromtimestamp_date (today - 50) (items src) = true
    ∨ at_end src = Exhausted →
  ∃ daily w' df',
    run today src w = Ret daily w'
    ∧ file w' = Some (Csv df')
    ∧ (taken today (items src) ≠ [] →
       rows df' = scored score <$>
                    keep_last (stored_rows (file w)
                               ++ (row_of_post <$> taken today (items src))))
    ∧ (taken today (items src) = [] →
       rows df' = keep_last (stored_rows (file w))).
Proof.
  intros Hf Hend.
  destruct (main_run_file today src w Hf Hend)
    as (w' & f' & Hrun & Hfile & Hnone & Hsome).
  eexists _, w', _. split; [exact Hrun|]. split; [exact Hfile|].
  destruct (taken today (items src)) as [|p pd] eqn:Htaken.
  - split; [done|]. intros _. rewrite (Hnone eq_refl).
    destruct (file w) as [[existing|]|]; [|done|done].
    simpl. by rewrite app_nil_r.
  - split; [|done]. intros _.
    destruct Hsome as (df & -> & Hrows); [done|].
    assert (empty (DataFrame_of (p :: pd)) = false) as -> by done.
    cbn [negb saved]. unfold merge at 1, drop_duplicates, concat.
    cbn [rows columns]. rewrite rows_analyzed.
    unfold merge, drop_duplicates, concat. cbn [rows columns].
    rewrite rows_loaded by done.
    change (rows (DataFrame_of (p :: pd))) with (row_of_post <$> p :: pd).
    rewrite keep_last_app, Hrows, keys_scored.
    rewrite filter_keys_covered, app_nil_l
      by (intros r Hr; by apply list_elem_of_fmap_2).
    apply keep_last_id. rewrite keys_scored. apply keep_last_NoDup.
Qed.

End DriverMore.

Section DriverStore.

Variable fromtimestamp_date : Z → Z.
Variable score : string → Q.

Local Abbreviation run := (main fromtimestamp_date score).
Local Abbreviation taken :=
  (λ today, collected fromtimestamp_date (today - 50) today).

(** X16: a run never removes an identity from the store, however the feed
    ends: every identity the file held before the run is in the file when
    the run has returned, or has raised the failure of the feed. *)
Theorem main_keeps_stored_identities (today : Z) (src : feed) (w : world)
    (k : string * string) :
  file w ≠ Some Malformed →
  k ∈ key <$> stored_rows (file w) →
  k ∈ key <$> stored_rows (file (final_world (run today src w))).
Proof.
  intros Hf Hk.
  destruct (stops fromtimestamp_date (today - 50) (items src)) eqn:Hh;
    [|destruct (at_end src) eqn:He].
  1,2: destruct (main_file_rows fromtimestamp_date score today src w Hf)
         as (daily & w' & df' & -> & Hfile & Hsome & Hnone);
         [by auto|];
       cbn [final_world]; rewrite Hfile; cbn [stored_rows];
       (destruct (taken today (items src)) as [|p pd] eqn:Htaken;
         [rewrite (Hnone eq_refl); by rewrite keep_last_keys|
          rewrite Hsome by done;
          rewrite keys_scored, keep_last_keys, fmap_app, elem_of_app;
          by left]).
  destruct (main_raises fromtimestamp_date score today src w Hf Hh He)
    as (w' & -> & Hinv).
  cbn [final_world].
  destruct Hinv as [[_ ->]|(_ & df & -> & Hrows)]; [done|].
  cbn [stored_rows].
  rewrite <- keep_last_keys, Hrows, keep_last_keys, fmap_app, elem_of_app.
  by left.
Qed.

End DriverStore.

(** * Pacing *)

Lemma div_succ_flush (b n : Z) :
  0 < b → (n + 1) mod b = 0 → (n + 1) / b = n / b + 1.
Proof.
  intros Hb Hm.
  pose proof (Z.div_mod (n + 1) b ltac:(lia)) as H1.
  pose proof (Z.div_mod n b ltac:(lia)) as H2.
  pose proof (Z.mod_pos_bound n b Hb) as H3.
  rewrite Hm in H1. nia.
Qed.

Lemma div_succ_keep (b n : Z) :
  0 < b → (n + 1) mod b ≠ 0 → (n + 1) / b = n / b.
Proof.
  intros Hb Hm.
  pose proof (Z.div_mod (n + 1) b ltac:(lia)) as H1.
  pose proof (Z.div_mod n b ltac:(lia)) as H2.
  pose proof (Z.mod_pos_bound n b Hb) as H3.
  pose proof (Z.mod_pos_bound (n + 1) b Hb) as H4.
  nia.
Qed.

Section Pacing.

Variable fromtimestamp_date : Z → Z.
Variables start_date end_date batch_size : Z.

Local Abbreviation ahead := (before_stop fromtimestamp_date start_date).

(** The paced loop does what the loop does, and sleeps one second per
    post ahead of the stop and two seconds per flush. *)
Lemma collect_loop_paced_spec (e : ending) (src : list Submission) :
  0 < batch_size →
  ∀ (pd : list post) (slept : Z) (w : world),
    collect_loop_paced fromtimestamp_date start_date end_date batch_size e
      src pd slept w
    = match collect_loop fromtimestamp_date start_date end_date batch_size e
              src pd w with
      | Ret pd' w' =>
          Ret (pd', slept + Z.of_nat (List.length (ahead src))
                    + 2 * (Z.of_nat (List.length pd') / batch_size
                           - Z.of_nat (List.length pd) / batch_size)) w'
      | Raise x w' => Raise x w'
      end.
Proof.
  intros Hb. induction src as [|s rest IH]; intros pd slept w.
  - simpl. destruct e; [|done]. unfold mret, M_ret. do 2 f_equal. lia.
  - simpl. unfold mbind, M_bind, fetch_one, py_mod, mret, M_ret.
    rewrite (proj2 (Z.eqb_neq batch_size 0)) by lia.
    fold (post_date fromtimestamp_date s).
    destruct (Z.ltb_spec (post_date fromtimestamp_date s) start_date)
      as [Hold|Hnew].
    + rewrite decide_True by done. simpl. do 2 f_equal. lia.
    + rewrite decide_False by lia. cbn [List.length].
      destruct (_ && _).
      * match goal with
        | |- context [?m =? 0] => destruct (Z.eqb_spec m 0) as [Hm|Hm]
        end.
        -- destruct (save_posts_to_csv _ _) as [[] w1|]; [|done].
           cbn [fst snd]. rewrite IH.
           destruct (collect_loop _ _ _ _ _ _ _ _) as [pd' w'|]; [|done].
           do 2 f_equal. rewrite length_app in *. cbn [List.length] in *.
           rewrite Nat2Z.inj_add in *. change (Z.of_nat 1) with 1 in *.
           rewrite (div_succ_flush batch_size (Z.of_nat (List.length pd)))
             by done.
           lia.
        -- cbn [fst snd]. rewrite IH.
           destruct (collect_loop _ _ _ _ _ _ _ _) as [pd' w'|]; [|done].
           do 2 f_equal. rewrite length_app in *. cbn [List.length] in *.
           rewrite Nat2Z.inj_add in *. change (Z.of_nat 1) with 1 in *.
           rewrite (div_succ_keep batch_size (Z.of_nat (List.length pd)))
             by done.
           lia.
      * cbn [fst snd]. rewrite IH.
        destruct (collect_loop _ _ _ _ _ _ _ _) as [pd' w'|]; [|done].
        do 2 f_equal. lia.
Qed.

(** X17: the collector with its pauses behaves as the collector, and when it
    returns it has slept one second for every post it pulled ahead of the
    stop, in the window or not, and two seconds for every full batch among
    the posts it returns. *)
Theorem collect_sleeps (src : feed) (w : world) :
  0 < batch_size →
  get_reddit_posts_for_date_paced fromtimestamp_date src
    start_date end_date batch_size w
  = match get_reddit_posts_for_date fromtimestamp_date src
            start_date end_date batch_size w with
    | Ret df w' =>
        Ret (df, Z.of_nat (List.length (ahead (items src)))
                 + 2 * (Z.of_nat (List.length (rows df)) / batch_size)) w'
    | Raise x w' => Raise x w'
    end.
Proof.
  intros Hb.
  unfold get_reddit_posts_for_date_paced, get_reddit_posts_for_date.
  unfold mbind, M_bind. rewrite collect_loop_paced_spec by done.
  destruct (collect_loop _ _ _ _ _ _ _ _) as [pd' w'|]; [|done].
  cbn [fst snd].
  assert (∀ o : outcome (),
            match o with
            | Ret _ w2 =>
                Ret (DataFrame_of pd',
                     0 + Z.of_nat (List.length (ahead (items src)))
                     + 2 * (Z.of_nat (List.length pd') / batch_size
                            - Z.of_nat (List.length (@nil post)) / batch_size))
                  w2
            | Raise x w2 => Raise x w2
            end
            = match match o with
                    | Ret _ w2 => Ret (DataFrame_of pd') w2
                    | Raise x w2 => Raise x w2
                    end with
              | Ret df w2 =>
                  Ret (df, Z.of_nat (List.length (ahead (items src)))
                           + 2 * (Z.of_nat (List.length (rows df)) / batch_size))
                    w2
              | Raise x w2 => Raise x w2
              end) as Hout.
  { intros [[] w2|]; [|done]. do 2 f_equal. simpl.
    rewrite length_fmap, Z.div_0_l by lia. lia. }
  apply Hout.
Qed.

End Pacing.

(** * The pipeline without a window *)

Section RawData.

Variable fromtimestamp : Z → Z.
Variable score : string → Q.

Lemma posts_loop_spec (e : ending) (posts : list Submission) :
  ∀ (pd : list post) (w : world),
    Raw_Data.posts_loop e posts pd w
    = (match e with
       | Exhausted =>
           Ret (pd ++ ((λ p, (title p, selftext p, created_utc p)) <$> posts))
       | Fails => Raise SourceError
       end)
        (mkWorld (heap w) (next w) (file w) (fetched w + List.length posts)).
Proof.
  induction posts as [|p rest IH]; intros pd w.
  - simpl. rewrite app_nil_r, Nat.add_0_r. by destruct w, e.
  - simpl. unfold mbind, M_bind, fetch_one. rewrite IH.
    cbn [heap next file fetched].
    rewrite <- app_assoc, Nat.add_succ_comm. done.
Qed.

(** The frame that [get_reddit_posts] builds from the posts it pulled. *)
Lemma set_Date_DataFrame_of (posts : list Submission) :
  Raw_Data.set_Date fromtimestamp
    (DataFrame_of ((λ p, (title p, selftext p, created_utc p)) <$> posts))
  = mkDataFrame raw_columns
      ((λ p, mkRow (title p) (selftext p) (fromtimestamp (created_utc p))
               None None None) <$> posts).
Proof.
  unfold Raw_Data.set_Date, DataFrame_of. cbn [columns rows]. f_equal.
  rewrite <- !list_fmap_compose. by apply list_fmap_ext.
Qed.

(** The run of [get_reddit_posts]. *)
Lemma get_reddit_posts_run (listing : feed) (limit : nat) (w : world) :
  let pulled := take limit (items listing) in
  let posts_df :=
    mkDataFrame raw_columns
      ((λ p, mkRow (title p) (selftext p) (fromtimestamp (created_utc p))
               None None None) <$> pulled) in
  Raw_Data.get_reddit_posts fromtimestamp listing limit w
  = (if decide (limit ≤ List.length (items listing))%nat then Ret posts_df
     else match at_end listing with
          | Exhausted => Ret posts_df
          | Fails => Raise SourceError
          end)
      (mkWorld (heap w) (next w) (file w) (fetched w + List.length pulled)).
Proof.
  intros pulled posts_df.
  unfold Raw_Data.get_reddit_posts, Raw_Data.hot, mbind, M_bind.
  destruct (decide (limit ≤ List.length (items listing))%nat) as [Hle|Hgt].
  - cbn [items at_end]. rewrite posts_loop_spec, app_nil_l.
    unfold mret, M_ret. by rewrite set_Date_DataFrame_of.
  - rewrite posts_loop_spec, app_nil_l.
    assert (pulled = items listing) as Hall
      by (unfold pulled; apply take_ge; lia).
    unfold posts_df. rewrite Hall.
    destruct (at_end listing); [|done].
    unfold mret, M_ret. by rewrite set_Date_DataFrame_of.
Qed.

(** X18: [get_reddit_posts] keeps every post it pulls, in the order of the
    listing, duplicates included: it returns one row per post among the
    first [limit] posts of the listing, and so at most [limit] rows.  It
    raises the failure of the listing only when the listing fails before
    [limit] posts.  It pulls no post beyond the limit and does not touch the
    file. *)
Theorem get_reddit_posts_keeps_all (listing : feed) (limit : nat) (w : world) :
  let pulled := take limit (items listing) in
  let posts_df :=
    mkDataFrame raw_columns
      ((λ p, mkRow (title p) (selftext p) (fromtimestamp (created_utc p))
               None None None) <$> pulled) in
  Raw_Data.get_reddit_posts fromtimestamp listing limit w
  = (if decide (limit ≤ List.length (items listing))%nat then Ret posts_df
     else match at_end listing with
          | Exhausted => Ret posts_df
          | Fails => Raise SourceError
          end)
      (mkWorld (heap w) (next w) (file w) (fetched w + List.length pulled))
  ∧ (List.length (rows posts_df) ≤ limit)%nat.
Proof.
  intros pulled posts_df. split; [apply get_reddit_posts_run|].
  unfold posts_df, pulled. cbn [rows]. rewrite length_fmap, length_take. lia.
Qed.

(** X19: [analyze_posts_sentiment] returns the reference it was given: the
    caller's frame itself now has the columns [Sentiment],
    [Text_Sentiment] and [Overall_Sentiment]; it has the rows it had, with
    their title, text and date, and on every row the overall score is the
    half sum of the two scores.  Nothing else changes. *)
Theorem analyze_posts_sentiment_in_place (posts_df : nat) (df : DataFrame)
    (w : world) :
  heap w !! posts_df = Some df →
  ∃ df',
    Raw_Data.analyze_posts_sentiment score posts_df w
    = Ret posts_df
        (mkWorld (<[posts_df := df']> (heap w)) (next w) (file w) (fetched w))
    ∧ (∀ c, c ∈ columns df'
            ↔ c ∈ columns df
              ∨ c ∈ ["Sentiment"; "Text_Sentiment"; "Overall_Sentiment"])
    ∧ raw_fields <$> rows df' = raw_fields <$> rows df
    ∧ (∀ r, r ∈ rows df' →
         Sentiment_Title r = Some (score (Title r))
         ∧ Sentiment_Text r = Some (score (Text r))
         ∧ Overall_Sentiment r
           = Some ((score (Title r) + score (Text r)) / 2)%Q).
Proof.
  intros Hdf.
  exists (set_Overall_Sentiment
            (Raw_Data.set_Text_Sentiment score
               (Raw_Data.set_Sentiment score df))).
  split_and!.
  - unfold Raw_Data.analyze_posts_sentiment.
    unfold mbind, M_bind, modify. rewrite Hdf. cbn [heap next file fetched].
    rewrite lookup_insert_eq. cbn [heap next file fetched].
    rewrite lookup_insert_eq. unfold mret, M_ret.
    rewrite !insert_insert_eq. reflexivity.
  - intros c. cbn [columns set_Overall_Sentiment Raw_Data.set_Text_Sentiment
                   Raw_Data.set_Sentiment].
    rewrite !(elem_of_add_column score), !elem_of_cons, elem_of_nil. tauto.
  - cbn [rows set_Overall_Sentiment Raw_Data.set_Text_Sentiment
         Raw_Data.set_Sentiment].
    rewrite <- !list_fmap_compose. by apply list_fmap_ext.
  - intros r. cbn [rows set_Overall_Sentiment Raw_Data.set_Text_Sentiment
                   Raw_Data.set_Sentiment].
    rewrite <- !list_fmap_compose.
    by intros (r0 & -> & _)%list_elem_of_fmap.
Qed.

(** X20: a run of [Raw_Data.main] on a listing that does not fail within its
    first 200 posts: the frame that is plotted has one row per pulled post,
    in the order of the listing, with the date and time of the post, its two
    scores and their half sum; what is printed is its first five rows.  No
    post is filtered out or deduplicated, at most 200 posts are pulled, and
    the file of the windowed pipeline is not touched.  When the scorer takes
    its values in [-1, 1], so does every overall score. *)
Theorem raw_main_plots_every_post (listing : feed) (w : world) :
  (200 ≤ List.length (items listing))%nat ∨ at_end listing = Exhausted →
  let pulled := take 200 (items listing) in
  let plotted :=
    mkDataFrame Raw_Data.all_columns
      (Raw_Data.analyzed_row fromtimestamp score <$> pulled) in
  ∃ w',
    Raw_Data.main fromtimestamp score listing w
    = Ret (Raw_Data.head plotted, plotted) w'
    ∧ file w' = file w
    ∧ fetched w' = (fetched w + List.length pulled)%nat
    ∧ (List.length (rows plotted) ≤ 200)%nat
    ∧ ((∀ s, -1 <= score s ∧ score s <= 1)%Q →
       ∀ r, r ∈ rows plotted →
            ∃ o, Overall_Sentiment r = Some o ∧ (-1 <= o ∧ o <= 1)%Q).
Proof.
  intros Hend pulled plotted. unfold Raw_Data.main.
  unfold mbind at 1, M_bind at 1. unfold mbind at 1, M_bind at 1.
  rewrite get_reddit_posts_run. fold pulled.
  assert ((if decide (200 ≤ List.length (items listing))%nat
           then Ret (A:=DataFrame)
                  (mkDataFrame raw_columns
                     ((λ p, mkRow (title p) (selftext p)
                              (fromtimestamp (created_utc p)) None None None)
                        <$> pulled))
           else match at_end listing with
                | Exhausted =>
                    Ret (mkDataFrame raw_columns
                           ((λ p, mkRow (title p) (selftext p)
                                    (fromtimestamp (created_utc p))
                                    None None None) <$> pulled))
                | Fails => Raise SourceError
                end)
          = Ret (mkDataFrame raw_columns
                   ((λ p, mkRow (title p) (selftext p)
                            (fromtimestamp (created_utc p)) None None None)
                      <$> pulled))) as ->.
  { case_decide; [done|]. destruct Hend as [?| ->]; [lia|done]. }
  unfold alloc at 1. cbn [heap next file fetched].
  unfold mbind at 1, M_bind at 1.
  unfold Raw_Data.analyze_posts_sentiment.
  unfold mbind, M_bind, modify, deref. cbn [heap next file fetched].
  rewrite lookup_insert_eq. cbn [heap next file fetched].
  rewrite lookup_insert_eq. cbn [heap next file fetched].
  rewrite lookup_insert_eq. unfold mret, M_ret. cbn [heap next file fetched].
  rewrite lookup_insert_eq.
  assert (set_Overall_Sentiment
            (Raw_Data.set_Text_Sentiment score
               (Raw_Data.set_Sentiment score
                  (mkDataFrame raw_columns
                     ((λ p, mkRow (title p) (selftext p)
                              (fromtimestamp (created_utc p)) None None None)
                        <$> pulled))))
          = plotted) as ->.
  { unfold plotted, set_Overall_Sentiment, Raw_Data.set_Text_Sentiment,
      Raw_Data.set_Sentiment. cbn [rows columns]. f_equal.
    rewrite <- !list_fmap_compose. by apply list_fmap_ext. }
  eexists. split; [done|]. cbn [file fetched]. split_and!; [done|done| |].
  - unfold plotted, pulled. cbn [rows].
    rewrite length_fmap, length_take. lia.
  - intros Hscore r (p & -> & _)%list_elem_of_fmap.
    eexists. split; [done|].
    destruct (Hscore (title p)), (Hscore (selftext p)).
    split; [apply Qle_shift_div_l|apply Qle_shift_div_r]; lra.
Qed.

End RawData.

(** * The further properties on sample data *)

Lemma collect_saves_on_normal_end_sample :
  0 < 100 ∧ file w_store2 ≠ Some Malformed
  ∧ stops utc_day 8 (items feed4) = true
  ∧ ∃ f' df,
      get_reddit_posts_for_date utc_day feed4 8 9 100 w_store2
      = Ret (DataFrame_of [("p9", "", 9); ("p8", "", 8)])
          (mkWorld ∅ 0%nat f' 4%nat)
      ∧ f' = Some (Csv df)
      ∧ ("t1", "x1") ∈ key <$> rows df
      ∧ ("p9", "") ∈ key <$> rows df.
Proof.
  assert (0 < 100) as H1 by lia.
  assert (file w_store2 ≠ Some Malformed) as H2 by discriminate.
  assert (stops utc_day 8 (items feed4) = true) as H3 by reflexivity.
  destruct (collect_saves_on_normal_end utc_day 8 9 100 feed4 w_store2
              H1 H2 (or_introl H3)) as (f' & Hrun & _ & Hsome).
  destruct Hsome as (df & Hf' & Hkeys & _); [discriminate|].
  split_and!; [exact H1|exact H2|exact H3|].
  exists f', df. split_and!; [exact Hrun|exact Hf'| |].
  - apply Hkeys. left. simpl. left.
  - apply Hkeys. right. simpl. left.
Defined.

Lemma collect_small_run_saves_once_sample :
  file w0 ≠ Some Malformed ∧ at_end Sample2.feed_dup = Exhausted
  ∧ collected utc_day 8 9 (items Sample2.feed_dup) ≠ []
  ∧ Z.of_nat (List.length (collected utc_day 8 9 (items Sample2.feed_dup))) < 100
  ∧ get_reddit_posts_for_date utc_day Sample2.feed_dup 8 9 100 w0
    = Ret (DataFrame_of [("t", "x", 9); ("t", "x", 9); ("u", "y", 8)])
        (mkWorld ∅ 0%nat
           (Some (Csv (DataFrame_of
                         [("t", "x", 9); ("t", "x", 9); ("u", "y", 8)])))
           3%nat).
Proof.
  assert (file w0 ≠ Some Malformed) as H1 by discriminate.
  assert (collected utc_day 8 9 (items Sample2.feed_dup) ≠ []) as H2
    by discriminate.
  assert (Z.of_nat (List.length (collected utc_day 8 9 (items Sample2.feed_dup)))
          < 100) as H3 by reflexivity.
  split_and!; [exact H1|reflexivity|exact H2|exact H3|].
  exact (proj1 (collect_small_run_saves_once utc_day 8 9 100 Sample2.feed_dup
                  w0 H1 (or_intror eq_refl) H2 H3)).
Defined.

Lemma collect_nothing_in_window_sample :
  collected utc_day 50 100 (items feed_old) = []
  ∧ get_reddit_posts_for_date utc_day feed_old 50 100 0 w_bad
    = Ret (DataFrame_of []) (mkWorld ∅ 0%nat (Some Malformed) 1%nat).
Proof.
  assert (collected utc_day 50 100 (items feed_old) = []) as H by reflexivity.
  split; [exact H|].
  exact (collect_nothing_in_window utc_day 50 100 0 feed_old w_bad H).
Defined.

Lemma collect_zero_batch_size_sample :
  get_reddit_posts_for_date utc_day Sample2.feed_newer 9 9 0 w0
  = Raise ZeroDivisionError (mkWorld ∅ 0%nat None 3%nat).
Proof.
  apply (collect_zero_batch_size utc_day 9 9 0 Sample2.feed_newer
           [sub "n1" "" 11; sub "n2" "" 10] [] (sub "in" "" 9) w0).
  - reflexivity.
  - reflexivity.
  - repeat constructor; try (vm_compute; discriminate);
      intros [_ H]; vm_compute in H; apply H; reflexivity.
  - split; vm_compute; discriminate.
Defined.

Lemma collect_over_unreadable_file_sample :
  (∃ w', get_reddit_posts_for_date utc_day feed_one 50 100 100 w_bad
         = Raise ParserError w'
         ∧ file w' = Some Malformed)
  ∧ main utc_day score 100 feed4 w_bad = Raise ParserError w_bad.
Proof.
  destruct (collect_over_unreadable_file utc_day 50 100 100 feed_one w_bad)
    as [(w' & Hrun & Hfile & _) Hmain].
  - lia.
  - reflexivity.
  - right. reflexivity.
  - discriminate.
  - split; [by exists w'|]. apply Hmain.
Defined.

Lemma daily_average_bounds_sample :
  (∀ s, -1 <= Sample2.score s ∧ Sample2.score s <= 1)%Q
  ∧ heap Sample2.w_mixed !! 0%nat = Some Sample2.mixed
  ∧ ∃ daily w',
      analyze_daily_sentiment Sample2.score 0 Sample2.w_mixed = Ret daily w'
      ∧ ∀ d v, (d, v) ∈ daily → ∃ m, v = Some m ∧ (-1 <= m ∧ m <= 1)%Q.
Proof.
  assert (∀ s, -1 <= Sample2.score s ∧ Sample2.score s <= 1)%Q as H1.
  { intros s. unfold Sample2.score.
    destruct (decide (s = "good")); [split; discriminate|].
    destruct (decide (s = "bad")); split; discriminate. }
  assert (heap Sample2.w_mixed !! 0%nat = Some Sample2.mixed) as H2
    by reflexivity.
  destruct (daily_average_bounds Sample2.score 0 Sample2.mixed Sample2.w_mixed
              H1 H2) as (daily & w' & df' & Hrun & _ & _ & Hb).
  split_and!; [exact H1|exact H2|]. exists daily, w'. split; assumption.
Defined.

Lemma analyze_daily_sentiment_twice_sample :
  heap Sample2.w_mixed !! 0%nat = Some Sample2.mixed
  ∧ (_ ← analyze_daily_sentiment Sample2.score 0;
     analyze_daily_sentiment Sample2.score 0) Sample2.w_mixed
    = analyze_daily_sentiment Sample2.score 0 Sample2.w_mixed.
Proof.
  assert (heap Sample2.w_mixed !! 0%nat = Some Sample2.mixed) as H
    by reflexivity.
  split; [exact H|].
  exact (analyze_daily_sentiment_twice Sample2.score 0 Sample2.mixed
           Sample2.w_mixed H).
Defined.

Lemma analyze_daily_sentiment_ignores_old_scores_sample :
  heap Sample2.w_mixed !! 0%nat = Some Sample2.mixed
  ∧ heap Sample2.w_mixed !! 2%nat = Some Sample2.mixed_stale
  ∧ raw_fields <$> rows Sample2.mixed = raw_fields <$> rows Sample2.mixed_stale
  ∧ ∃ daily w1 w2,
      analyze_daily_sentiment Sample2.score 0 Sample2.w_mixed = Ret daily w1
      ∧ analyze_daily_sentiment Sample2.score 2 Sample2.w_mixed = Ret daily w2.
Proof.
  assert (heap Sample2.w_mixed !! 0%nat = Some Sample2.mixed) as H1
    by reflexivity.
  assert (heap Sample2.w_mixed !! 2%nat = Some Sample2.mixed_stale) as H2
    by reflexivity.
  assert (raw_fields <$> rows Sample2.mixed
          = raw_fields <$> rows Sample2.mixed_stale) as H3 by reflexivity.
  destruct (analyze_daily_sentiment_ignores_old_scores Sample2.score 0 2
              Sample2.mixed Sample2.mixed_stale Sample2.w_mixed H1 H2 H3)
    as (daily & w1 & w2 & _ & _ & Hr1 & Hr2 & _).
  split_and!; [exact H1|exact H2|exact H3|].
  exists daily, w1, w2. split; assumption.
Defined.

Lemma main_keeps_stored_identities_sample :
  file w_store2 ≠ Some Malformed
  ∧ ("t2", "x2") ∈ key <$> stored_rows (file w_store2)
  ∧ ("t2", "x2")
    ∈ key <$> stored_rows
                (file (final_world (main utc_day score 9 feed_fail w_store2))).
Proof.
  assert (file w_store2 ≠ Some Malformed) as H1 by discriminate.
  assert (("t2", "x2") ∈ key <$> stored_rows (file w_store2)) as H2
    by (simpl; right; left).
  split_and!; [exact H1|exact H2|].
  exact (main_keeps_stored_identities utc_day score 9 feed_fail w_store2
           ("t2", "x2") H1 H2).
Defined.

Lemma collect_sleeps_sample :
  0 < 1
  ∧ ∃ w', get_reddit_posts_for_date_paced utc_day feed4 8 9 1 w0
          = Ret (DataFrame_of [("p9", "", 9); ("p8", "", 8)], 7) w'.
Proof.
  assert (0 < 1) as H by lia. split; [exact H|].
  pose proof (collect_sleeps utc_day 8 9 1 feed4 w0 H) as Hrun.
  destruct (get_reddit_posts_for_date utc_day feed4 8 9 1 w0)
    as [df w'|] eqn:Hget; vm_compute in Hget; [|discriminate].
  injection Hget as <- <-. eexists. exact Hrun.
Defined.

Lemma analyze_posts_sentiment_in_place_sample :
  heap Sample2.w_mixed !! 0%nat = Some Sample2.mixed
  ∧ ∃ df' w',
      Raw_Data.analyze_posts_sentiment Sample2.score 0 Sample2.w_mixed
      = Ret 0%nat w'
      ∧ heap w' !! 0%nat = Some df'
      ∧ "Text_Sentiment" ∈ columns df'.
Proof.
  assert (heap Sample2.w_mixed !! 0%nat = Some Sample2.mixed) as H
    by reflexivity.
  destruct (analyze_posts_sentiment_in_place Sample2.score 0 Sample2.mixed
              Sample2.w_mixed H) as (df' & Hrun & Hcols & _).
  split; [exact H|]. eexists df', _. split_and!; [exact Hrun| |].
  - cbn [heap]. apply lookup_insert_eq.
  - apply Hcols. right. right. left.
Defined.

Lemma raw_main_plots_every_post_sample :
  at_end feed4 = Exhausted
  ∧ ∃ printed plotted w',
      Raw_Data.main utc_day Sample2.score feed4 w0 = Ret (printed, plotted) w'
      ∧ List.length (rows plotted) = 4%nat
      ∧ file w' = None.
Proof.
  destruct (raw_main_plots_every_post utc_day Sample2.score feed4 w0
              (or_intror eq_refl)) as (w' & Hrun & Hfile & _).
  split; [reflexivity|]. eexists _, _, w'.
  split_and!; [exact Hrun|reflexivity|exact Hfile].
Defined.
